(** * SiteLedger: dashboard aggregation and form validation

    A shallow embedding of the client-side logic of the construction
    expense tracker:

    - [src/hooks/useDashboardData.ts]: [fetchData] and the aggregation it
      performs ([projectsSummary], [totalPortfolioBalance], [last7Days],
      [dailyStats]);
    - [src/app/(tabs)/projects.tsx]: [handleCreateProject], [fetchProjects]
      and [onRefresh];
    - the project detail screen: [handleCreateTransaction], [fetchData],
      [openModal] and the totals of the summary card;
    - [src/app/(tabs)/index.tsx]: the view the dashboard screen selects, the
      "Total Earnings" figure and the bar chart.

    Conventions of the embedding.

    - A JavaScript string is a [string]; its characters are read as code
      units below 256.  [===] on strings is [String.eqb].
    - Monetary amounts read from the store are [numeric(15,2)] columns; an
      amount is represented by the integer number of hundredths it denotes,
      and sums are exact.  Rounding of binary floating point in [sum + x]
      is outside the model.
    - The result of [parseFloat] is a [JS.number] that records exactly
      whether the text denotes NaN, an infinity, a zero or a non-zero finite
      value after rounding to binary64 (underflow and overflow included);
      the mantissa of a finite value is kept as the decimal that was read.
    - A time value is an integer number of milliseconds since the epoch.
      The range check of [TimeClip] is not represented: the clock reading
      is far from the limits of the Date range.
    - Effects (React state setters, gateway requests, alerts, exceptions)
      are threaded through a small state-and-exception monad. *)

From Stdlib Require Import ZArith QArith List String Ascii Bool Lia.
From Stdlib Require Import Floats.SpecFloat.
From Stdlib Require Import Sorting.Permutation.
Import ListNotations.

#[local] Open Scope string_scope.
#[local] Open Scope list_scope.
#[local] Open Scope Z_scope.

(* ===================================================================== *)
(** * The JavaScript primitives the code relies on *)
(* ===================================================================== *)

Module JS.

(** [!s] for a string: only the empty string is falsy. *)
Definition not_string (s : string) : bool :=
  match s with
  | EmptyString => true
  | String _ _ => false
  end.

(** [a || b] on strings. *)
Definition or_string (a b : string) : string :=
  if not_string a then b else a.

(** [Array.prototype.reduce] with an initial value. *)
Definition reduce {A B : Type} (f : B -> A -> B) (init : B) (l : list A) : B :=
  fold_left f l init.

(** [xs?.filter(p) || []] for a possibly null array. *)
Definition filter_or_empty {A : Type} (p : A -> bool) (xs : option (list A))
  : list A :=
  match xs with
  | Some l => filter p l
  | None => []
  end.

(** ** Numbers produced by [parseFloat] *)

Inductive number : Type :=
| NaN
| Infinity (negative : bool)
| Zero (negative : bool)
| Finite (negative : bool) (mantissa : N) (exponent : Z).

Definition isNaN (x : number) : bool :=
  match x with
  | NaN => true
  | _ => false
  end.

(** [x < 0] *)
Definition lt_zero (x : number) : bool :=
  match x with
  | NaN => false
  | Infinity neg => neg
  | Zero _ => false
  | Finite neg _ _ => neg
  end.

(** [x <= 0] *)
Definition le_zero (x : number) : bool :=
  match x with
  | NaN => false
  | Infinity neg => neg
  | Zero _ => true
  | Finite neg _ _ => neg
  end.

(** ** [parseFloat] *)

Definition code (c : ascii) : N := N_of_ascii c.

(** White space and line terminators among the code units below 256. *)
Definition isWhiteSpace (c : ascii) : bool :=
  let n := code c in
  ((9 <=? n) && (n <=? 13) || (n =? 32) || (n =? 160))%N.

Fixpoint trimStart (s : string) : string :=
  match s with
  | String c r => if isWhiteSpace c then trimStart r else s
  | EmptyString => EmptyString
  end.

Definition digitValue (c : ascii) : option N :=
  let n := code c in
  if ((48 <=? n) && (n <=? 57))%N then Some (n - 48)%N else None.

(** The longest run of decimal digits at the head of [s], and the rest. *)
Fixpoint takeDigits (s : string) : list N * string :=
  match s with
  | String c r =>
      match digitValue c with
      | Some d => let '(ds, rest) := takeDigits r in (d :: ds, rest)
      | None => ([], s)
      end
  | EmptyString => ([], EmptyString)
  end.

Definition digitsValue (ds : list N) : N :=
  fold_left (fun acc d => (10 * acc + d)%N) ds 0%N.

(** An optional sign: [true] for a minus. *)
Definition takeSign (s : string) : bool * string :=
  match s with
  | String "-" r => (true, r)
  | String "+" r => (false, r)
  | _ => (false, s)
  end.

(** The value of the exponent part at the head of [s] and the text after
    it; 0 and [s] itself when there is no well-formed exponent part (the
    prefix then ends before it). *)
Definition ExponentPart (s : string) : Z * string :=
  match s with
  | String c r =>
      if (Ascii.eqb c "e" || Ascii.eqb c "E")%bool then
        let '(neg, r') := takeSign r in
        let '(ds, rest) := takeDigits r' in
        match ds with
        | [] => (0, s)
        | _ => (if neg then - Z.of_N (digitsValue ds)
                else Z.of_N (digitsValue ds), rest)
        end
      else (0, s)
  | EmptyString => (0, s)
  end.

(** The mathematical value of the longest prefix that is a
    StrUnsignedDecimalLiteral. *)
Inductive MV : Type :=
| MVInfinity
| MVDecimal (mantissa : N) (exponent : Z).

(** [s] without its first [n] characters. *)
Fixpoint drop (n : nat) (s : string) : string :=
  match n, s with
  | S n', String _ r => drop n' r
  | _, _ => s
  end.

(** The longest prefix of [s] that is a StrUnsignedDecimalLiteral: its
    value and the text that follows it. *)
Definition StrUnsignedDecimalLiteral (s : string) : option (MV * string) :=
  if prefix "Infinity" s then Some (MVInfinity, drop 8 s)
  else
    let '(ip, r1) := takeDigits s in
    let '(fp, r2) :=
      match r1 with
      | String "." r =>
          match ip, takeDigits r with
          | [], ([], _) => ([], r1)
          | _, x => x
          end
      | _ => ([], r1)
      end in
    match ip ++ fp with
    | [] => None
    | ds =>
        let '(ex, rest) := ExponentPart r2 in
        Some (MVDecimal (digitsValue ds) (ex - Z.of_nat (List.length fp)), rest)
    end.

(** Rounding to nearest, ties to even, at the two ends of binary64:
    a value of magnitude at most 2^-1075 becomes a zero, one of magnitude
    at least 2^1024 - 2^970 becomes an infinity. *)
Definition roundsToZero (m : N) (e : Z) : bool :=
  (Z.of_N m =? 0)
  || (if e <? 0 then Z.of_N m * 2 ^ 1075 <=? 10 ^ (- e) else false).

Definition roundsToInfinity (m : N) (e : Z) : bool :=
  if 0 <=? e then 2 ^ 1024 - 2 ^ 970 <=? Z.of_N m * 10 ^ e
  else (2 ^ 1024 - 2 ^ 970) * 10 ^ (- e) <=? Z.of_N m.

Definition RoundMVResult (neg : bool) (v : MV) : number :=
  match v with
  | MVInfinity => Infinity neg
  | MVDecimal m e =>
      if roundsToZero m e then Zero neg
      else if roundsToInfinity m e then Infinity neg
      else Finite neg m e
  end.

Definition parseFloat (s : string) : number :=
  let '(neg, r) := takeSign (trimStart s) in
  match StrUnsignedDecimalLiteral r with
  | Some (v, _) => RoundMVResult neg v
  | None => NaN
  end.

(** ** Dates *)

Definition msPerDay : Z := 86400000.

Definition Day (t : Z) : Z := t / msPerDay.
Definition TimeWithinDay (t : Z) : Z := t mod msPerDay.

Definition DaysInYear (y : Z) : Z :=
  if negb (y mod 4 =? 0) then 365
  else if negb (y mod 100 =? 0) then 366
  else if negb (y mod 400 =? 0) then 365
  else 366.

Definition DayFromYear (y : Z) : Z :=
  365 * (y - 1970) + (y - 1969) / 4 - (y - 1901) / 100 + (y - 1601) / 400.

Definition TimeFromYear (y : Z) : Z := msPerDay * DayFromYear y.

(** The largest [y] with [TimeFromYear y <= t]: the estimate from the mean
    length of a year is off by at most one. *)
Definition YearFromTime (t : Z) : Z :=
  let d := Day t in
  let y0 := 1970 + (400 * d) / 146097 in
  if DayFromYear (y0 + 1) <=? d then y0 + 1
  else if DayFromYear y0 <=? d then y0
  else y0 - 1.

Definition InLeapYear (t : Z) : Z :=
  if DaysInYear (YearFromTime t) =? 366 then 1 else 0.

Definition DayWithinYear (t : Z) : Z := Day t - DayFromYear (YearFromTime t).

(** Number of the first day of month [m] (0 to 11) within its year. *)
Definition firstDayOfMonth (m leap : Z) : Z :=
  if m =? 0 then 0
  else if m =? 1 then 31
  else if m =? 2 then 59 + leap
  else if m =? 3 then 90 + leap
  else if m =? 4 then 120 + leap
  else if m =? 5 then 151 + leap
  else if m =? 6 then 181 + leap
  else if m =? 7 then 212 + leap
  else if m =? 8 then 243 + leap
  else if m =? 9 then 273 + leap
  else if m =? 10 then 304 + leap
  else 334 + leap.

Definition MonthFromTime (t : Z) : Z :=
  let d := DayWithinYear t in
  let l := InLeapYear t in
  if d <? 31 then 0
  else if d <? 59 + l then 1
  else if d <? 90 + l then 2
  else if d <? 120 + l then 3
  else if d <? 151 + l then 4
  else if d <? 181 + l then 5
  else if d <? 212 + l then 6
  else if d <? 243 + l then 7
  else if d <? 273 + l then 8
  else if d <? 304 + l then 9
  else if d <? 334 + l then 10
  else 11.

Definition DateFromTime (t : Z) : Z :=
  DayWithinYear t - firstDayOfMonth (MonthFromTime t) (InLeapYear t) + 1.

Definition HourFromTime (t : Z) : Z := (t / 3600000) mod 24.
Definition MinFromTime (t : Z) : Z := (t / 60000) mod 60.
Definition SecFromTime (t : Z) : Z := (t / 1000) mod 60.
Definition msFromTime (t : Z) : Z := t mod 1000.

Definition MakeDay (year month date : Z) : Z :=
  let ym := year + month / 12 in
  let mn := month mod 12 in
  DayFromYear ym
  + firstDayOfMonth mn (if DaysInYear ym =? 366 then 1 else 0)
  + date - 1.

Definition MakeDate (day time : Z) : Z := day * msPerDay + time.

(** The host's time zone: the offset of local time from UTC, in
    milliseconds, at a UTC time value and at a local time value. *)
Record TimeZone : Type := {
  offsetAtUTC : Z -> Z;
  offsetAtLocal : Z -> Z
}.

Definition LocalTime (tz : TimeZone) (t : Z) : Z := t + offsetAtUTC tz t.
Definition UTC (tz : TimeZone) (t : Z) : Z := t - offsetAtLocal tz t.

(** [date.getDate()] and the time value after [date.setDate(dt)], for a
    Date object whose time value is [tv]. *)
Definition getDate (tz : TimeZone) (tv : Z) : Z :=
  DateFromTime (LocalTime tz tv).

Definition setDate (tz : TimeZone) (tv dt : Z) : Z :=
  let t := LocalTime tz tv in
  UTC tz (MakeDate (MakeDay (YearFromTime t) (MonthFromTime t) dt)
            (TimeWithinDay t)).

Definition digitChar (d : Z) : ascii := ascii_of_N (48 + Z.to_N d).

(** [n] written with exactly [w] decimal digits. *)
Fixpoint digits (w : nat) (n : Z) : string :=
  match w with
  | O => EmptyString
  | S w' => (digits w' (n / 10) ++ String (digitChar (n mod 10)) EmptyString)%string
  end.

Definition yearString (y : Z) : string :=
  if (0 <=? y) && (y <=? 9999) then digits 4 y
  else if y <? 0 then String "-" (digits 6 (- y))
  else String "+" (digits 6 y).

(** The part of [toISOString] before the "T". *)
Definition isoDatePart (t : Z) : string :=
  (yearString (YearFromTime t) ++ "-" ++ digits 2 (MonthFromTime t + 1)
   ++ "-" ++ digits 2 (DateFromTime t))%string.

Definition isoTimePart (t : Z) : string :=
  (digits 2 (HourFromTime t) ++ ":" ++ digits 2 (MinFromTime t) ++ ":"
   ++ digits 2 (SecFromTime t) ++ "." ++ digits 3 (msFromTime t) ++ "Z")%string.

Definition toISOString (t : Z) : string :=
  (isoDatePart t ++ "T" ++ isoTimePart t)%string.

(** [s.split(c)[0]]: the text before the first occurrence of [c]. *)
Fixpoint split_head (c : ascii) (s : string) : string :=
  match s with
  | EmptyString => EmptyString
  | String a r => if Ascii.eqb a c then EmptyString else String a (split_head c r)
  end.

(** [[0; 1; ...; n-1]], the indices [Array.from({ length: n }, f)] maps. *)
Definition indices (n : nat) : list Z := map Z.of_nat (seq 0 n).

Definition Array_from {A : Type} (n : nat) (f : Z -> A) : list A :=
  map f (indices n).

End JS.


(* ===================================================================== *)
(** * Effects: state, exceptions and the gateway's answers *)
(* ===================================================================== *)

Module Eff.

(** The value a failed gateway call carries and [throw] raises. *)
Record Error : Type := { message : string }.

(** What [await supabase.from(...)...] resolves to. *)
Record Response (A : Type) : Type := {
  data : option A;
  error : option Error
}.
Arguments data {A} _.
Arguments error {A} _.

Inductive Outcome (A : Type) : Type :=
| Returned (a : A)
| Thrown (e : Error).
Arguments Returned {A} a.
Arguments Thrown {A} e.

(** A computation over a world [W] that returns or throws. *)
Definition M (W A : Type) : Type := W -> Outcome A * W.

Definition ret {W A : Type} (a : A) : M W A := fun w => (Returned a, w).

Definition bind {W A B : Type} (m : M W A) (k : A -> M W B) : M W B :=
  fun w =>
    match m w with
    | (Returned a, w') => k a w'
    | (Thrown e, w') => (Thrown e, w')
    end.

Definition throw {W A : Type} (e : Error) : M W A := fun w => (Thrown e, w).

Definition modify {W : Type} (f : W -> W) : M W unit :=
  fun w => (Returned tt, f w).

Definition gets {W A : Type} (f : W -> A) : M W A :=
  fun w => (Returned (f w), w).

(** [try { body } catch (err) { handler err } finally { cleanup }] *)
Definition try_catch_finally {W : Type}
  (body : M W unit) (handler : Error -> M W unit) (cleanup : M W unit)
  : M W unit :=
  fun w =>
    match body w with
    | (Returned _, w1) => cleanup w1
    | (Thrown e, w1) =>
        match handler e w1 with
        | (Returned _, w2) => cleanup w2
        | (Thrown e', w2) =>
            match cleanup w2 with
            | (Returned _, w3) => (Thrown e', w3)
            | (Thrown e'', w3) => (Thrown e'', w3)
            end
        end
    end.

(** [if (error) throw error;] *)
Definition throw_if_error {W : Type} (e : option Error) : M W unit :=
  match e with
  | Some err => throw err
  | None => ret tt
  end.

(** The world a computation leaves behind. *)
Definition exec {W A : Type} (m : M W A) (w : W) : W := snd (m w).

End Eff.

Declare Scope eff_scope.
Delimit Scope eff_scope with eff.
Notation "x <- m ;; k" := (Eff.bind m (fun x => k))
  (at level 61, m at next level, right associativity) : eff_scope.
Notation "m ;; k" := (Eff.bind m (fun _ => k))
  (at level 61, right associativity) : eff_scope.

(* ===================================================================== *)
(** * Rows of the two tables ([database.types.ts]) *)
(* ===================================================================== *)

Module Project.

Record Row : Type := {
  id : string;
  user_id : string;
  name : string;
  location : string;
  project_type : string;
  base_contract_amount : Z;
  created_at : string;
  updated_at : string
}.

End Project.

Module Transaction.

(** ['credit' | 'debit'] *)
Inductive Kind : Type := credit | debit.

Definition Kind_eqb (a b : Kind) : bool :=
  match a, b with
  | credit, credit => true
  | debit, debit => true
  | _, _ => false
  end.

Record Row : Type := {
  id : string;
  project_id : string;
  type : Kind;
  amount : Z;
  description : string;
  transaction_date : string;
  category : string;
  created_at : string
}.

End Transaction.

(* ===================================================================== *)
(** * [useDashboardData] *)
(* ===================================================================== *)

Module Dashboard.

Import Eff.

Record ProjectSummary : Type := {
  projectId : string;
  projectName : string;
  totalCredits : Z;
  totalDebits : Z;
  profit : Z
}.

Record DailyStat : Type := {
  date : string;
  credits : Z;
  debits : Z
}.

Record WeeklyStat : Type := {
  week : string;
  week_credits : Z;
  week_debits : Z
}.

Record MonthlyStat : Type := {
  month : string;
  month_credits : Z;
  month_debits : Z
}.

Record DashboardData : Type := {
  totalPortfolioBalance : Z;
  totalProjects : Z;
  projectsSummary : list ProjectSummary;
  dailyStats : list DailyStat;
  weeklyStats : list WeeklyStat;
  monthlyStats : list MonthlyStat
}.

(** The initial value of [data], also set when there is no project. *)
Definition emptyData : DashboardData := {|
  totalPortfolioBalance := 0;
  totalProjects := 0;
  projectsSummary := [];
  dailyStats := [];
  weeklyStats := [];
  monthlyStats := []
|}.

(** [Number(t.amount)]: the column is already a number. *)
Definition Number (x : Z) : Z := x.

(** [ts.filter((t) => t.type === k).reduce((sum, t) => sum + Number(t.amount), 0)] *)
Definition sumOfKind (k : Transaction.Kind) (ts : list Transaction.Row) : Z :=
  JS.reduce (fun sum t => sum + Number (Transaction.amount t)) 0
    (filter (fun t => Transaction.Kind_eqb (Transaction.type t) k) ts).

(** The callback of [projects.map] at lines 72-92. *)
Definition summarize (transactions : option (list Transaction.Row))
  (project : Project.Row) : ProjectSummary :=
  let projectTransactions :=
    JS.filter_or_empty
      (fun t => String.eqb (Transaction.project_id t) (Project.id project))
      transactions in
  let totalCredits := sumOfKind Transaction.credit projectTransactions in
  let totalDebits := sumOfKind Transaction.debit projectTransactions in
  {| projectId := Project.id project;
     projectName := Project.name project;
     totalCredits := totalCredits;
     totalDebits := totalDebits;
     profit := totalCredits - totalDebits |}.

Definition computeProjectsSummary (projects : list Project.Row)
  (transactions : option (list Transaction.Row)) : list ProjectSummary :=
  map (summarize transactions) projects.

Definition computeTotalPortfolioBalance (summary : list ProjectSummary) : Z :=
  JS.reduce (fun sum p => sum + profit p) 0 summary.

(** Lines 99-104: the dates of the last seven days, oldest first. *)
Definition last7Days (tz : JS.TimeZone) (now : Z) : list string :=
  rev (JS.Array_from 7 (fun i =>
         let date := now in
         let date := JS.setDate tz date (JS.getDate tz date - i) in
         JS.split_head "T" (JS.toISOString date))).

(** The callback of [last7Days.map] at lines 106-120. *)
Definition dailyStat (transactions : option (list Transaction.Row))
  (date : string) : DailyStat :=
  let dayTransactions :=
    JS.filter_or_empty
      (fun t => String.eqb (Transaction.transaction_date t) date)
      transactions in
  {| date := date;
     credits := sumOfKind Transaction.credit dayTransactions;
     debits := sumOfKind Transaction.debit dayTransactions |}.

Definition computeDailyStats (transactions : option (list Transaction.Row))
  (days : list string) : list DailyStat :=
  map (dailyStat transactions) days.

(** The state of the hook. *)
Record HookState : Type := {
  data : DashboardData;
  loading : bool;
  error : option string
}.

Definition initialState : HookState := {|
  data := emptyData;
  loading := true;
  error := None
|}.

(** Requests sent to the gateway. *)
Inductive Query : Type :=
| SelectProjects (user_id : string)
| SelectTransactions (project_ids : list string).

(** What one run of [fetchData] meets outside the hook: the signed-in user,
    the gateway's answers, the clock and the host's time zone. *)
Record Env : Type := {
  user : string;
  projectsResponse : Response (list Project.Row);
  transactionsResponse : list string -> Response (list Transaction.Row);
  now : Z;
  tz : JS.TimeZone
}.

Record World : Type := {
  state : HookState;
  queries : list Query
}.

Definition setData (d : DashboardData) : M World unit :=
  modify (fun w =>
    {| state := {| data := d; loading := loading (state w);
                   error := error (state w) |};
       queries := queries w |}).

Definition setLoading (b : bool) : M World unit :=
  modify (fun w =>
    {| state := {| data := data (state w); loading := b;
                   error := error (state w) |};
       queries := queries w |}).

Definition setError (e : option string) : M World unit :=
  modify (fun w =>
    {| state := {| data := data (state w); loading := loading (state w);
                   error := e |};
       queries := queries w |}).

Definition send (q : Query) : M World unit :=
  modify (fun w => {| state := state w; queries := queries w ++ [q] |}).

(** [supabase.from('projects').select('*').eq('user_id', user.id)] *)
Definition selectProjects (env : Env) : M World (Response (list Project.Row)) :=
  (send (SelectProjects (user env)) ;;
   ret (projectsResponse env))%eff.

(** [supabase.from('transactions').select('*').in('project_id', projectIds)] *)
Definition selectTransactions (env : Env) (projectIds : list string)
  : M World (Response (list Transaction.Row)) :=
  (send (SelectTransactions projectIds) ;;
   ret (transactionsResponse env projectIds))%eff.

(** Lines 63-129: what [fetchData] does once it holds a non-empty list of
    projects. *)
Definition aggregate (env : Env) (projects : list Project.Row) : M World unit :=
  (let projectIds := map Project.id projects in
   r <- selectTransactions env projectIds ;;
   throw_if_error (Eff.error r) ;;
   let transactions := Eff.data r in
   let projectsSummary := computeProjectsSummary projects transactions in
   let totalPortfolioBalance := computeTotalPortfolioBalance projectsSummary in
   let now := now env in
   let last7Days := last7Days (tz env) now in
   let dailyStats := computeDailyStats transactions last7Days in
   setData {| totalPortfolioBalance := totalPortfolioBalance;
              totalProjects := Z.of_nat (List.length projects);
              projectsSummary := projectsSummary;
              dailyStats := dailyStats;
              weeklyStats := [];
              monthlyStats := [] |})%eff.

(** Lines 38-135. *)
Definition fetchData (env : Env) : M World unit :=
  try_catch_finally
    (setLoading true ;;
     setError None ;;
     r <- selectProjects env ;;
     throw_if_error (Eff.error r) ;;
     match Eff.data r with
     | None | Some [] =>
         setData emptyData ;;
         setLoading false ;;
         ret tt
     | Some projects => aggregate env projects
     end)%eff
    (fun err =>
       setError (Some (JS.or_string (message err)
                         "Failed to load dashboard data")))
    (setLoading false).

End Dashboard.

(* ===================================================================== *)
(** * JavaScript numbers: IEEE 754 binary64 *)
(* ===================================================================== *)

Module Binary64.

(** A number is a binary64 value: a signed zero, a signed infinity, NaN, or
    [(-1)^s * m * 2^e] with a mantissa of at most 53 bits. *)
Definition number : Type := spec_float.

Definition prec : Z := 53.
Definition emax : Z := 1024.

(** The literal [0]. *)
Definition zero : number := S754_zero false.

(** [x + y], [x - y] and [x / y]: the exact result rounded to the nearest
    number, ties to even. *)
Definition add (x y : number) : number := SFadd prec emax x y.
Definition sub (x y : number) : number := SFsub prec emax x y.
Definition div (x y : number) : number := SFdiv prec emax x y.

(** The number an integer denotes (exact below [2^53]). *)
Definition ofZ (n : Z) : number := binary_normalize prec emax n 0 false.

(** The number a decimal numeral with two fractional digits denotes, given
    as its count of hundredths: the number nearest to [n / 100], which is
    the correctly rounded quotient of the integers [n] and [100]. *)
Definition ofHundredths (n : Z) : number := div (ofZ n) (ofZ 100).

(** [l.reduce((sum, x) => sum + x, 0)]: the numbers of [l] added one after
    the other, in the order of the list, starting from [0]. *)
Definition sum (l : list number) : number := fold_left add l zero.

(** [x] is a zero, of either sign. *)
Definition isZero (x : number) : bool :=
  match x with
  | S754_zero _ => true
  | _ => false
  end.

(** [x] and [y] are the same number, or both are zeros (of either sign). *)
Definition sameValue (x y : number) : Prop :=
  x = y \/ (isZero x = true /\ isZero y = true).

(** [0 <= x] *)
Definition geZero (x : number) : bool := SFleb zero x.

End Binary64.

(* ===================================================================== *)
(** * [useDashboardData], with the amounts as the numbers they are *)
(* ===================================================================== *)

(** [Dashboard] above keeps an amount as its count of hundredths and adds
    exactly; it serves for what does not depend on rounding: the requests
    sent, the states the hook goes through, the identifiers and dates of
    the entries, the signs of the totals.  [Dashboard64] is the same code
    with the arithmetic of the source: [Number(t.amount)] is the binary64
    number nearest to the stored decimal and [+], [-] round. *)

Module Dashboard64.

Import Eff.

Record ProjectSummary : Type := {
  projectId : string;
  projectName : string;
  totalCredits : Binary64.number;
  totalDebits : Binary64.number;
  profit : Binary64.number
}.

Record DailyStat : Type := {
  date : string;
  credits : Binary64.number;
  debits : Binary64.number
}.

Record DashboardData : Type := {
  totalPortfolioBalance : Binary64.number;
  totalProjects : Z;
  projectsSummary : list ProjectSummary;
  dailyStats : list DailyStat;
  weeklyStats : list Dashboard.WeeklyStat;
  monthlyStats : list Dashboard.MonthlyStat
}.

Definition emptyData : DashboardData := {|
  totalPortfolioBalance := Binary64.zero;
  totalProjects := 0;
  projectsSummary := [];
  dailyStats := [];
  weeklyStats := [];
  monthlyStats := []
|}.

(** [Number(t.amount)]: the stored [numeric(15,2)] value arrives as a JSON
    number. *)
Definition Number (x : Z) : Binary64.number := Binary64.ofHundredths x.

(** [ts.filter((t) => t.type === k).reduce((sum, t) => sum + Number(t.amount), 0)] *)
Definition sumOfKind (k : Transaction.Kind) (ts : list Transaction.Row)
  : Binary64.number :=
  JS.reduce (fun sum t => Binary64.add sum (Number (Transaction.amount t)))
    Binary64.zero
    (filter (fun t => Transaction.Kind_eqb (Transaction.type t) k) ts).

(** The callback of [projects.map] at lines 72-92. *)
Definition summarize (transactions : option (list Transaction.Row))
  (project : Project.Row) : ProjectSummary :=
  let projectTransactions :=
    JS.filter_or_empty
      (fun t => String.eqb (Transaction.project_id t) (Project.id project))
      transactions in
  let totalCredits := sumOfKind Transaction.credit projectTransactions in
  let totalDebits := sumOfKind Transaction.debit projectTransactions in
  {| projectId := Project.id project;
     projectName := Project.name project;
     totalCredits := totalCredits;
     totalDebits := totalDebits;
     profit := Binary64.sub totalCredits totalDebits |}.

Definition computeProjectsSummary (projects : list Project.Row)
  (transactions : option (list Transaction.Row)) : list ProjectSummary :=
  map (summarize transactions) projects.

(** Lines 94-97. *)
Definition computeTotalPortfolioBalance (summary : list ProjectSummary)
  : Binary64.number :=
  JS.reduce (fun sum p => Binary64.add sum (profit p)) Binary64.zero summary.

(** The callback of [last7Days.map] at lines 106-120. *)
Definition dailyStat (transactions : option (list Transaction.Row))
  (date : string) : DailyStat :=
  let dayTransactions :=
    JS.filter_or_empty
      (fun t => String.eqb (Transaction.transaction_date t) date)
      transactions in
  {| date := date;
     credits := sumOfKind Transaction.credit dayTransactions;
     debits := sumOfKind Transaction.debit dayTransactions |}.

Definition computeDailyStats (transactions : option (list Transaction.Row))
  (days : list string) : list DailyStat :=
  map (dailyStat transactions) days.

Record HookState : Type := {
  data : DashboardData;
  loading : bool;
  error : option string
}.

Definition initialState : HookState := {|
  data := emptyData;
  loading := true;
  error := None
|}.

Record World : Type := {
  state : HookState;
  queries : list Dashboard.Query
}.

Definition setData (d : DashboardData) : M World unit :=
  modify (fun w =>
    {| state := {| data := d; loading := loading (state w);
                   error := error (state w) |};
       queries := queries w |}).

Definition setLoading (b : bool) : M World unit :=
  modify (fun w =>
    {| state := {| data := data (state w); loading := b;
                   error := error (state w) |};
       queries := queries w |}).

Definition setError (e : option string) : M World unit :=
  modify (fun w =>
    {| state := {| data := data (state w); loading := loading (state w);
                   error := e |};
       queries := queries w |}).

Definition send (q : Dashboard.Query) : M World unit :=
  modify (fun w => {| state := state w; queries := queries w ++ [q] |}).

Definition selectProjects (env : Dashboard.Env)
  : M World (Response (list Project.Row)) :=
  (send (Dashboard.SelectProjects (Dashboard.user env)) ;;
   ret (Dashboard.projectsResponse env))%eff.

Definition selectTransactions (env : Dashboard.Env) (projectIds : list string)
  : M World (Response (list Transaction.Row)) :=
  (send (Dashboard.SelectTransactions projectIds) ;;
   ret (Dashboard.transactionsResponse env projectIds))%eff.

(** Lines 63-129. *)
Definition aggregate (env : Dashboard.Env) (projects : list Project.Row)
  : M World unit :=
  (let projectIds := map Project.id projects in
   r <- selectTransactions env projectIds ;;
   throw_if_error (Eff.error r) ;;
   let transactions := Eff.data r in
   let projectsSummary := computeProjectsSummary projects transactions in
   let totalPortfolioBalance := computeTotalPortfolioBalance projectsSummary in
   let now := Dashboard.now env in
   let last7Days := Dashboard.last7Days (Dashboard.tz env) now in
   let dailyStats := computeDailyStats transactions last7Days in
   setData {| totalPortfolioBalance := totalPortfolioBalance;
              totalProjects := Z.of_nat (List.length projects);
              projectsSummary := projectsSummary;
              dailyStats := dailyStats;
              weeklyStats := [];
              monthlyStats := [] |})%eff.

(** Lines 38-135. *)
Definition fetchData (env : Dashboard.Env) : M World unit :=
  try_catch_finally
    (setLoading true ;;
     setError None ;;
     r <- selectProjects env ;;
     throw_if_error (Eff.error r) ;;
     match Eff.data r with
     | None | Some [] =>
         setData emptyData ;;
         setLoading false ;;
         ret tt
     | Some projects => aggregate env projects
     end)%eff
    (fun err =>
       setError (Some (JS.or_string (message err)
                         "Failed to load dashboard data")))
    (setLoading false).

End Dashboard64.

(* ===================================================================== *)
(** * Rows submitted to the gateway ([Insert] in [database.types.ts]) *)
(* ===================================================================== *)

Module ProjectInsert.

Record Row : Type := {
  user_id : string;
  name : string;
  location : string;
  project_type : string;
  base_contract_amount : JS.number
}.

End ProjectInsert.

Module TransactionInsert.

Record Row : Type := {
  project_id : string;
  type : Transaction.Kind;
  amount : JS.number;
  description : string;
  category : string;
  transaction_date : string
}.

End TransactionInsert.

(* ===================================================================== *)
(** * The projects screen: [handleCreateProject] *)
(* ===================================================================== *)

Module ProjectsScreen.

Import Eff.

Record FormData : Type := {
  name : string;
  location : string;
  project_type : string;
  base_contract_amount : string
}.

Definition emptyForm : FormData := {|
  name := "";
  location := "";
  project_type := "";
  base_contract_amount := ""
|}.

(** The part of the screen's state the handler writes. *)
Record ScreenState : Type := {
  formData : FormData;
  creating : bool;
  modalVisible : bool
}.

(** What the handler does to the outside, in order. *)
Inductive Effect : Type :=
| Alert (title message : string)
| Insert (row : ProjectInsert.Row)
| FetchProjects.

Record Env : Type := {
  user : string;
  insertResponse : ProjectInsert.Row -> Response unit
}.

Record World : Type := {
  state : ScreenState;
  effects : list Effect
}.

Definition perform (e : Effect) : M World unit :=
  modify (fun w => {| state := state w; effects := effects w ++ [e] |}).

Definition setCreating (b : bool) : M World unit :=
  modify (fun w =>
    {| state := {| formData := formData (state w); creating := b;
                   modalVisible := modalVisible (state w) |};
       effects := effects w |}).

Definition setModalVisible (b : bool) : M World unit :=
  modify (fun w =>
    {| state := {| formData := formData (state w);
                   creating := creating (state w); modalVisible := b |};
       effects := effects w |}).

Definition setFormData (f : FormData) : M World unit :=
  modify (fun w =>
    {| state := {| formData := f; creating := creating (state w);
                   modalVisible := modalVisible (state w) |};
       effects := effects w |}).

(** [supabase.from('projects').insert(row)] *)
Definition insert (env : Env) (row : ProjectInsert.Row) : M World (Response unit) :=
  (perform (Insert row) ;;
   ret (insertResponse env row))%eff.

(** Lines 78-115. *)
Definition handleCreateProject (env : Env) : M World unit :=
  (formData <- gets (fun w => formData (state w)) ;;
   if JS.not_string (name formData) || JS.not_string (location formData)
      || JS.not_string (project_type formData)
      || JS.not_string (base_contract_amount formData)
   then perform (Alert "Error" "Please fill in all fields")
   else
     let amount := JS.parseFloat (base_contract_amount formData) in
     if JS.isNaN amount || JS.lt_zero amount
     then perform (Alert "Error" "Please enter a valid contract amount")
     else
       setCreating true ;;
       try_catch_finally
         (r <- insert env
                 {| ProjectInsert.user_id := user env;
                    ProjectInsert.name := name formData;
                    ProjectInsert.location := location formData;
                    ProjectInsert.project_type := project_type formData;
                    ProjectInsert.base_contract_amount := amount |} ;;
          throw_if_error (Eff.error r) ;;
          setModalVisible false ;;
          setFormData emptyForm ;;
          perform FetchProjects)
         (fun err =>
            perform (Alert "Error"
                       (JS.or_string (message err) "Failed to create project")))
         (setCreating false))%eff.

End ProjectsScreen.

(* ===================================================================== *)
(** * The project detail screen: [handleCreateTransaction] *)
(* ===================================================================== *)

Module ProjectDetailScreen.

Import Eff.

Record FormData : Type := {
  amount : string;
  description : string;
  category : string;
  transaction_date : string
}.

(** The part of the screen's state the handler reads or writes. *)
Record ScreenState : Type := {
  transactionType : Transaction.Kind;
  formData : FormData;
  creating : bool;
  modalVisible : bool
}.

Inductive Effect : Type :=
| Alert (title message : string)
| Insert (row : TransactionInsert.Row)
| FetchData.

(** [id] is the route parameter naming the project on display. *)
Record Env : Type := {
  id : string;
  insertResponse : TransactionInsert.Row -> Response unit;
  now : Z
}.

Record World : Type := {
  state : ScreenState;
  effects : list Effect
}.

Definition perform (e : Effect) : M World unit :=
  modify (fun w => {| state := state w; effects := effects w ++ [e] |}).

Definition setCreating (b : bool) : M World unit :=
  modify (fun w =>
    {| state := {| transactionType := transactionType (state w);
                   formData := formData (state w); creating := b;
                   modalVisible := modalVisible (state w) |};
       effects := effects w |}).

Definition setModalVisible (b : bool) : M World unit :=
  modify (fun w =>
    {| state := {| transactionType := transactionType (state w);
                   formData := formData (state w);
                   creating := creating (state w); modalVisible := b |};
       effects := effects w |}).

Definition setFormData (f : FormData) : M World unit :=
  modify (fun w =>
    {| state := {| transactionType := transactionType (state w);
                   formData := f; creating := creating (state w);
                   modalVisible := modalVisible (state w) |};
       effects := effects w |}).

(** [supabase.from('transactions').insert(row)] *)
Definition insert (env : Env) (row : TransactionInsert.Row)
  : M World (Response unit) :=
  (perform (Insert row) ;;
   ret (insertResponse env row))%eff.

(** Lines 180-218 of the screen. *)
Definition handleCreateTransaction (env : Env) : M World unit :=
  (formData <- gets (fun w => formData (state w)) ;;
   transactionType <- gets (fun w => transactionType (state w)) ;;
   if JS.not_string (amount formData) || JS.not_string (description formData)
   then perform (Alert "Error" "Please fill in amount and description")
   else
     let amount := JS.parseFloat (amount formData) in
     if JS.isNaN amount || JS.le_zero amount
     then perform (Alert "Error" "Please enter a valid amount")
     else
       setCreating true ;;
       try_catch_finally
         (r <- insert env
                 {| TransactionInsert.project_id := id env;
                    TransactionInsert.type := transactionType;
                    TransactionInsert.amount := amount;
                    TransactionInsert.description := description formData;
                    TransactionInsert.category := category formData;
                    TransactionInsert.transaction_date :=
                      transaction_date formData |} ;;
          throw_if_error (Eff.error r) ;;
          setModalVisible false ;;
          setFormData
            {| amount := "";
               description := "";
               category := "";
               transaction_date :=
                 JS.split_head "T" (JS.toISOString (now env)) |} ;;
          perform FetchData)
         (fun err =>
            perform (Alert "Error"
                       (JS.or_string (message err)
                          "Failed to create transaction")))
         (setCreating false))%eff.

End ProjectDetailScreen.


(* ===================================================================== *)
(** * The vocabulary of the specification *)
(* ===================================================================== *)

Module Spec.

(** [Σ amount] over the transactions of [ts] that satisfy [P]. *)
Fixpoint sumWhere (P : Transaction.Row -> bool) (ts : list Transaction.Row) : Z :=
  match ts with
  | [] => 0
  | t :: rest => (if P t then Transaction.amount t else 0) + sumWhere P rest
  end.

Definition isCredit (t : Transaction.Row) : bool :=
  Transaction.Kind_eqb (Transaction.type t) Transaction.credit.

Definition isDebit (t : Transaction.Row) : bool :=
  Transaction.Kind_eqb (Transaction.type t) Transaction.debit.

(** The transaction belongs to the project. *)
Definition belongsTo (p : Project.Row) (t : Transaction.Row) : bool :=
  String.eqb (Transaction.project_id t) (Project.id p).

(** The transaction is dated [d]. *)
Definition datedOn (d : string) (t : Transaction.Row) : bool :=
  String.eqb (Transaction.transaction_date t) d.


(** [Σ profit] over a list of summaries. *)
Fixpoint sumProfit (l : list Dashboard.ProjectSummary) : Z :=
  match l with
  | [] => 0
  | s :: rest => Dashboard.profit s + sumProfit rest
  end.



(** The calendar date of day number [d] (days since the epoch), written
    YYYY-MM-DD. *)
Definition dateOfDay (d : Z) : string := JS.isoDatePart (d * JS.msPerDay).

(** The seven calendar days that end on day [d], oldest first. *)
Definition windowEndingOn (d : Z) : list string :=
  map (fun k => dateOfDay (d - 6 + k)) (JS.indices 7).

(** The text is numeric: apart from white space around it, the whole of it
    is a signed decimal numeral. *)
Definition numeric (s : string) : bool :=
  let '(_, r) := JS.takeSign (JS.trimStart s) in
  match JS.StrUnsignedDecimalLiteral r with
  | Some (_, rest) => JS.not_string (JS.trimStart rest)
  | None => false
  end.

End Spec.

(* ===================================================================== *)
(** * Runs of the hook and of the two handlers *)
(* ===================================================================== *)

Module Run.

Import Eff.

Definition ok {A : Type} (x : A) : Response A :=
  {| Eff.data := Some x; Eff.error := None |}.

Definition failed {A : Type} (msg : string) : Response A :=
  {| Eff.data := None; Eff.error := Some {| message := msg |} |}.

(** The gateway answers the two queries of [fetchData] with [projects] and
    [transactions]; the second query is only sent for a non-empty list of
    projects. *)
Definition answers (env : Dashboard.Env) (projects : list Project.Row)
  (transactions : list Transaction.Row) : Prop :=
  Dashboard.projectsResponse env = ok projects
  /\ (projects <> [] ->
      Dashboard.transactionsResponse env (map Project.id projects)
      = ok transactions).

(** The snapshot held by the hook after a run of [fetchData]. *)
Definition snapshot (env : Dashboard.Env) (w : Dashboard.World)
  : Dashboard.DashboardData :=
  Dashboard.data (Dashboard.state (exec (Dashboard.fetchData env) w)).

(** The requests a run of [fetchData] adds to the gateway's log. *)
Definition queriesAfter (env : Dashboard.Env) (w : Dashboard.World)
  : list Dashboard.Query :=
  Dashboard.queries (exec (Dashboard.fetchData env) w).

(** A zone whose offset from UTC never changes. *)
Definition fixedZone (offset : Z) : JS.TimeZone :=
  {| JS.offsetAtUTC := fun _ => offset; JS.offsetAtLocal := fun _ => offset |}.

(** Central European time in 2025: one hour ahead of UTC, two hours between
    2025-03-30T01:00Z and 2025-10-26T01:00Z.  A local time that is skipped or
    repeated at a transition is read with the offset in force before it. *)
Definition springForward2025 : Z := 1743296400000.
Definition fallBack2025 : Z := 1761440400000.

Definition berlin : JS.TimeZone :=
  {| JS.offsetAtUTC := fun t =>
       if t <? springForward2025 then 3600000
       else if t <? fallBack2025 then 7200000
       else 3600000;
     JS.offsetAtLocal := fun t =>
       if t - 7200000 <? springForward2025 then 3600000
       else if t - 7200000 <? fallBack2025 then 7200000
       else 3600000 |}.

(** India: five and a half hours ahead of UTC all year. *)
Definition kolkata : JS.TimeZone := fixedZone 19800000.

(** Sample rows. *)
Definition project (i n : string) : Project.Row :=
  {| Project.id := i; Project.user_id := "u1"; Project.name := n;
     Project.location := "Pune"; Project.project_type := "Commercial";
     Project.base_contract_amount := 0;
     Project.created_at := "2025-10-01T00:00:00Z";
     Project.updated_at := "2025-10-01T00:00:00Z" |}.

Definition transaction (i p : string) (k : Transaction.Kind) (a : Z)
  (d : string) : Transaction.Row :=
  {| Transaction.id := i; Transaction.project_id := p; Transaction.type := k;
     Transaction.amount := a; Transaction.description := "entry";
     Transaction.transaction_date := d; Transaction.category := "";
     Transaction.created_at := "2025-10-01T00:00:00Z" |}.

Definition dashboardEnv (projects : list Project.Row)
  (transactions : list Transaction.Row) (now : Z) (tz : JS.TimeZone)
  : Dashboard.Env :=
  {| Dashboard.user := "u1";
     Dashboard.projectsResponse := ok projects;
     Dashboard.transactionsResponse := fun _ => ok transactions;
     Dashboard.now := now;
     Dashboard.tz := tz |}.

Definition dashboardStart : Dashboard.World :=
  {| Dashboard.state := Dashboard.initialState; Dashboard.queries := [] |}.

(** The scenario of the specification: one project, a credit and a debit
    on day D = 2025-10-27 and a debit on day D-2; a second project without
    transactions.  Amounts in hundredths; the clock reads
    2025-10-27T00:30:00Z. *)
Definition downtown : Project.Row := project "p1" "Downtown Office".
Definition harbour : Project.Row := project "p2" "Harbour Bridge".

Definition ledger : list Transaction.Row :=
  [ transaction "t1" "p1" Transaction.credit 500000 "2025-10-27";
    transaction "t2" "p1" Transaction.debit 120000 "2025-10-27";
    transaction "t3" "p1" Transaction.debit 30000 "2025-10-25" ].

Definition clock : Z := 1761525000000.


(** The clock one hour into the night of 2025-04-01 to 2025-04-02 in
    central Europe: 2025-04-01T23:30:00Z. *)
Definition springClock : Z := 1743550200000.



(** The project detail screen with the form filled in. *)
Definition detailEnv : ProjectDetailScreen.Env :=
  {| ProjectDetailScreen.id := "p1";
     ProjectDetailScreen.insertResponse := fun _ => ok tt;
     ProjectDetailScreen.now := clock |}.

Definition detailWorld (amount description : string) : ProjectDetailScreen.World :=
  {| ProjectDetailScreen.state :=
       {| ProjectDetailScreen.transactionType := Transaction.debit;
          ProjectDetailScreen.formData :=
            {| ProjectDetailScreen.amount := amount;
               ProjectDetailScreen.description := description;
               ProjectDetailScreen.category := "materials";
               ProjectDetailScreen.transaction_date := "2025-10-27" |};
          ProjectDetailScreen.creating := false;
          ProjectDetailScreen.modalVisible := true |};
     ProjectDetailScreen.effects := [] |}.

(** The projects screen with the form filled in. *)
Definition projectsEnv : ProjectsScreen.Env :=
  {| ProjectsScreen.user := "u1";
     ProjectsScreen.insertResponse := fun _ => ok tt |}.

Definition projectsWorld (name location project_type amount : string)
  : ProjectsScreen.World :=
  {| ProjectsScreen.state :=
       {| ProjectsScreen.formData :=
            {| ProjectsScreen.name := name;
               ProjectsScreen.location := location;
               ProjectsScreen.project_type := project_type;
               ProjectsScreen.base_contract_amount := amount |};
          ProjectsScreen.creating := false;
          ProjectsScreen.modalVisible := true |};
     ProjectsScreen.effects := [] |}.

End Run.


(* ===================================================================== *)
(** * Reading a date back: [new Date("YYYY-MM-DD")] *)
(* ===================================================================== *)

Module DateParse.

(** Exactly [w] decimal digits at the head of [s]: the number they write,
    after the digits already read ([acc]), and the rest of the text. *)
Fixpoint readDigits (w : nat) (acc : Z) (s : string) : option (Z * string) :=
  match w with
  | O => Some (acc, s)
  | S w' =>
      match s with
      | String c r =>
          match JS.digitValue c with
          | Some d => readDigits w' (10 * acc + Z.of_N d) r
          | None => None
          end
      | EmptyString => None
      end
  end.

(** A given character at the head of [s]. *)
Definition expect (c : ascii) (s : string) : option string :=
  match s with
  | String a r => if Ascii.eqb a c then Some r else None
  | EmptyString => None
  end.

Definition leapOf (y : Z) : Z := if JS.DaysInYear y =? 366 then 1 else 0.

(** Days in month [m] (0 to 11) of year [y]. *)
Definition DaysInMonth (y m : Z) : Z :=
  if m =? 11 then 31
  else JS.firstDayOfMonth (m + 1) (leapOf y) - JS.firstDayOfMonth m (leapOf y).

(** The time value of a date-only string of the Date Time String Format
    with a four-digit year, [YYYY-MM-DD], which is read as UTC midnight.
    [None] stands for every other text: the longer and shorter forms of the
    format, and texts outside it, whose reading is left to the host, are not
    represented. *)
Definition parseDateOnly (s : string) : option Z :=
  match readDigits 4 0 s with
  | Some (y, r1) =>
      match expect "-" r1 with
      | Some r2 =>
          match readDigits 2 0 r2 with
          | Some (m, r3) =>
              match expect "-" r3 with
              | Some r4 =>
                  match readDigits 2 0 r4 with
                  | Some (d, EmptyString) =>
                      if (1 <=? m) && (m <=? 12) && (1 <=? d)
                         && (d <=? DaysInMonth y (m - 1))
                      then Some (JS.MakeDate (JS.MakeDay y (m - 1) d) 0)
                      else None
                  | _ => None
                  end
              | None => None
              end
          | None => None
          end
      | None => None
      end
  | None => None
  end.

End DateParse.

(* ===================================================================== *)
(** * The dashboard screen ([index.tsx]) *)
(* ===================================================================== *)

Module DashboardScreen.

(** What the screen returns, by lines 21-45: the loading view, the error
    view, or the content. *)
Inductive View : Type :=
| LoadingView
| ErrorView (message : string)
| ContentView (data : Dashboard.DashboardData).

(** [if (error)]: the empty string is falsy, like null. *)
Definition view (hook : Dashboard.HookState) (refreshing : bool) : View :=
  if Dashboard.loading hook && negb refreshing then LoadingView
  else
    match Dashboard.error hook with
    | Some msg => if JS.not_string msg then ContentView (Dashboard.data hook)
                  else ErrorView msg
    | None => ContentView (Dashboard.data hook)
    end.

(** Line 47. *)
Definition isPositive (data : Dashboard.DashboardData) : bool :=
  0 <=? Dashboard.totalPortfolioBalance data.


(** The literal [1] of line 107, one unit of currency, in hundredths. *)
Definition oneUnit : Z := 100.

(** Lines 105-108: [Math.max(...dailyStats.map((s) => Math.max(s.credits,
    s.debits)), 1)]. *)
Definition maxValue (data : Dashboard.DashboardData) : Z :=
  fold_right Z.max oneUnit
    (map (fun s => Z.max (Dashboard.credits s) (Dashboard.debits s))
       (Dashboard.dailyStats data)).

(** Lines 109-110: [(value / maxValue) * 120], an exact quotient. *)
Definition scaled (value maxValue : Z) : Q :=
  (inject_Z value / inject_Z maxValue * 120)%Q.

(** [height || 4]: a height of 0 is falsy. *)
Definition orFour (h : Q) : Q := if Qeq_bool h 0 then 4%Q else h.

Record Bar : Type := {
  key : string;
  creditHeight : Q;
  debitHeight : Q;
  label : option Z
}.

(** Line 119: [new Date(stat.date).getDate()]; [None] when the date is not
    of the form [DateParse.parseDateOnly] reads. *)
Definition barLabel (tz : JS.TimeZone) (date : string) : option Z :=
  option_map (JS.getDate tz) (DateParse.parseDateOnly date).

(** The callback of [data.dailyStats.map] at lines 104-123. *)
Definition bar (tz : JS.TimeZone) (data : Dashboard.DashboardData)
  (stat : Dashboard.DailyStat) : Bar :=
  let maxValue := maxValue data in
  {| key := Dashboard.date stat;
     creditHeight := orFour (scaled (Dashboard.credits stat) maxValue);
     debitHeight := orFour (scaled (Dashboard.debits stat) maxValue);
     label := barLabel tz (Dashboard.date stat) |}.

(** Lines 102-127: the bars, or the text "No transactions yet". *)
Inductive Chart : Type :=
| Bars (bars : list Bar)
| NoTransactionsYet.

Definition chart (tz : JS.TimeZone) (data : Dashboard.DashboardData) : Chart :=
  if (0 <? Z.of_nat (List.length (Dashboard.dailyStats data)))
  then Bars (map (bar tz data) (Dashboard.dailyStats data))
  else NoTransactionsYet.

End DashboardScreen.

(* ===================================================================== *)
(** * The projects screen: [fetchProjects] and [onRefresh] *)
(* ===================================================================== *)

Module ProjectsList.

Import Eff.

(** The part of the screen's state the loader writes. *)
Record ListState : Type := {
  projects : list Project.Row;
  loading : bool;
  refreshing : bool
}.

Definition initialState : ListState :=
  {| projects := []; loading := true; refreshing := false |}.

Inductive Effect : Type :=
| SelectProjectsNewestFirst (user_id : string)
| Alert (title message : string).

(** [user] is null until the session is known. *)
Record Env : Type := {
  user : option string;
  projectsResponse : Response (list Project.Row)
}.

Record World : Type := {
  state : ListState;
  effects : list Effect
}.

Definition perform (e : Effect) : M World unit :=
  modify (fun w => {| state := state w; effects := effects w ++ [e] |}).

Definition setProjects (l : list Project.Row) : M World unit :=
  modify (fun w =>
    {| state := {| projects := l; loading := loading (state w);
                   refreshing := refreshing (state w) |};
       effects := effects w |}).

Definition setLoading (b : bool) : M World unit :=
  modify (fun w =>
    {| state := {| projects := projects (state w); loading := b;
                   refreshing := refreshing (state w) |};
       effects := effects w |}).

Definition setRefreshing (b : bool) : M World unit :=
  modify (fun w =>
    {| state := {| projects := projects (state w);
                   loading := loading (state w); refreshing := b |};
       effects := effects w |}).

(** [data || []] *)
Definition orEmpty {A : Type} (x : option (list A)) : list A :=
  match x with
  | Some l => l
  | None => []
  end.

(** Lines 36-54. *)
Definition fetchProjects (env : Env) : M World unit :=
  match user env with
  | None => ret tt
  | Some uid =>
      try_catch_finally
        (perform (SelectProjectsNewestFirst uid) ;;
         let r := projectsResponse env in
         throw_if_error (Eff.error r) ;;
         setProjects (orEmpty (Eff.data r)))%eff
        (fun err =>
           perform (Alert "Error"
                      (JS.or_string (message err) "Failed to load projects")))
        (setLoading false ;; setRefreshing false)%eff
  end.

(** Lines 73-76. *)
Definition onRefresh (env : Env) : M World unit :=
  (setRefreshing true ;; fetchProjects env)%eff.

End ProjectsList.

(* ===================================================================== *)
(** * The project detail screen: loading, totals and [openModal] *)
(* ===================================================================== *)

Module ProjectDetailLoad.

Import Eff.

Record LoadState : Type := {
  project : option Project.Row;
  transactions : list Transaction.Row;
  loading : bool;
  refreshing : bool
}.

Definition initialState : LoadState :=
  {| project := None; transactions := []; loading := true;
     refreshing := false |}.

Inductive Effect : Type :=
| SelectProject (id : string)
| SelectTransactionsNewestFirst (project_id : string)
| Alert (title message : string)
| RouterBack.

(** [id] is the route parameter; [projectResponse] answers
    [.eq('id', id).maybeSingle()], whose data is one row or null. *)
Record Env : Type := {
  id : string;
  projectResponse : Response Project.Row;
  transactionsResponse : Response (list Transaction.Row)
}.

Record World : Type := {
  state : LoadState;
  effects : list Effect
}.

Definition perform (e : Effect) : M World unit :=
  modify (fun w => {| state := state w; effects := effects w ++ [e] |}).

Definition setProject (p : option Project.Row) : M World unit :=
  modify (fun w =>
    {| state := {| project := p; transactions := transactions (state w);
                   loading := loading (state w);
                   refreshing := refreshing (state w) |};
       effects := effects w |}).

Definition setTransactions (l : list Transaction.Row) : M World unit :=
  modify (fun w =>
    {| state := {| project := project (state w); transactions := l;
                   loading := loading (state w);
                   refreshing := refreshing (state w) |};
       effects := effects w |}).

Definition setLoading (b : bool) : M World unit :=
  modify (fun w =>
    {| state := {| project := project (state w);
                   transactions := transactions (state w); loading := b;
                   refreshing := refreshing (state w) |};
       effects := effects w |}).

Definition setRefreshing (b : bool) : M World unit :=
  modify (fun w =>
    {| state := {| project := project (state w);
                   transactions := transactions (state w);
                   loading := loading (state w); refreshing := b |};
       effects := effects w |}).

(** Lines 125-156 of the screen. *)
Definition fetchData (env : Env) : M World unit :=
  try_catch_finally
    (perform (SelectProject (id env)) ;;
     let r := projectResponse env in
     throw_if_error (Eff.error r) ;;
     match Eff.data r with
     | None =>
         perform (Alert "Error" "Project not found") ;;
         perform RouterBack
     | Some projectData =>
         setProject (Some projectData) ;;
         perform (SelectTransactionsNewestFirst (id env)) ;;
         let r2 := transactionsResponse env in
         throw_if_error (Eff.error r2) ;;
         setTransactions (ProjectsList.orEmpty (Eff.data r2))
     end)%eff
    (fun err =>
       perform (Alert "Error"
                  (JS.or_string (message err) "Failed to load project data")))
    (setLoading false ;; setRefreshing false)%eff.

(** Lines 175-178. *)
Definition onRefresh (env : Env) : M World unit :=
  (setRefreshing true ;; fetchData env)%eff.

(** Lines 243-252: the figures of the summary card. *)
Definition totalCredits (ts : list Transaction.Row) : Z :=
  Dashboard.sumOfKind Transaction.credit ts.

Definition totalDebits (ts : list Transaction.Row) : Z :=
  Dashboard.sumOfKind Transaction.debit ts.



(** Lines 220-223, on the state [handleCreateTransaction] works with. *)
Definition setTransactionType (k : Transaction.Kind)
  : M ProjectDetailScreen.World unit :=
  modify (fun w =>
    {| ProjectDetailScreen.state :=
         {| ProjectDetailScreen.transactionType := k;
            ProjectDetailScreen.formData :=
              ProjectDetailScreen.formData (ProjectDetailScreen.state w);
            ProjectDetailScreen.creating :=
              ProjectDetailScreen.creating (ProjectDetailScreen.state w);
            ProjectDetailScreen.modalVisible :=
              ProjectDetailScreen.modalVisible (ProjectDetailScreen.state w) |};
       ProjectDetailScreen.effects := ProjectDetailScreen.effects w |}).

Definition openModal (type : Transaction.Kind) : M ProjectDetailScreen.World unit :=
  (setTransactionType type ;; ProjectDetailScreen.setModalVisible true)%eff.

End ProjectDetailLoad.

(* ===================================================================== *)
(** * Further sample runs *)
(* ===================================================================== *)

Module Samples.

Import Eff.

(** Colombia: five hours behind UTC all year. *)
Definition bogota : JS.TimeZone := Run.fixedZone (-18000000).

(** The gateway turns down the projects query. *)
Definition projectsDown : Dashboard.Env :=
  {| Dashboard.user := "u1";
     Dashboard.projectsResponse := Run.failed "network down";
     Dashboard.transactionsResponse := fun _ => Run.ok Run.ledger;
     Dashboard.now := Run.clock;
     Dashboard.tz := Run.kolkata |}.

(** The gateway answers the transactions query with neither rows nor an
    error. *)
Definition transactionsNull : Dashboard.Env :=
  {| Dashboard.user := "u1";
     Dashboard.projectsResponse := Run.ok [Run.downtown];
     Dashboard.transactionsResponse :=
       fun _ => {| Eff.data := None; Eff.error := None |};
     Dashboard.now := Run.clock;
     Dashboard.tz := Run.kolkata |}.

(** The hook after an earlier, successful run. *)
Definition dashboardLoaded : Dashboard.World :=
  exec (Dashboard.fetchData
          (Run.dashboardEnv [Run.downtown] Run.ledger Run.clock Run.kolkata))
    Run.dashboardStart.


(** The gateway turns down every insert. *)
Definition projectsEnvDown : ProjectsScreen.Env :=
  {| ProjectsScreen.user := "u1";
     ProjectsScreen.insertResponse := fun _ => Run.failed "" |}.

End Samples.

(* ===================================================================== *)
(** * Runs of the hook on numbers, and the words to speak of them *)
(* ===================================================================== *)

Module Spec64.

(** The amounts of the transactions of [ts] that satisfy [P], as numbers,
    in the order of [ts]. *)
Definition amountsWhere (P : Transaction.Row -> bool) (ts : list Transaction.Row)
  : list Binary64.number :=
  map (fun t => Dashboard64.Number (Transaction.amount t)) (filter P ts).

(** Their sum: added one after the other, from 0. *)
Definition sumWhere (P : Transaction.Row -> bool) (ts : list Transaction.Row)
  : Binary64.number :=
  Binary64.sum (amountsWhere P ts).

(** The summary of project [p] over the transactions [ts]. *)
Definition summaryOf (ts : list Transaction.Row) (p : Project.Row)
  : Dashboard64.ProjectSummary :=
  let credits := sumWhere (fun t => Spec.belongsTo p t && Spec.isCredit t) ts in
  let debits := sumWhere (fun t => Spec.belongsTo p t && Spec.isDebit t) ts in
  {| Dashboard64.projectId := Project.id p;
     Dashboard64.projectName := Project.name p;
     Dashboard64.totalCredits := credits;
     Dashboard64.totalDebits := debits;
     Dashboard64.profit := Binary64.sub credits debits |}.

(** The entry of date [d] over the transactions [ts]. *)
Definition entryOf (ts : list Transaction.Row) (d : string)
  : Dashboard64.DailyStat :=
  {| Dashboard64.date := d;
     Dashboard64.credits :=
       sumWhere (fun t => Spec.datedOn d t && Spec.isCredit t) ts;
     Dashboard64.debits :=
       sumWhere (fun t => Spec.datedOn d t && Spec.isDebit t) ts |}.

(** A daily entry with one more transaction counted in it: the amount is
    added to the side of its kind. *)
Definition counted (t : Transaction.Row) (e : Dashboard64.DailyStat)
  : Dashboard64.DailyStat :=
  match Transaction.type t with
  | Transaction.credit =>
      {| Dashboard64.date := Dashboard64.date e;
         Dashboard64.credits :=
           Binary64.add (Dashboard64.credits e)
             (Dashboard64.Number (Transaction.amount t));
         Dashboard64.debits := Dashboard64.debits e |}
  | Transaction.debit =>
      {| Dashboard64.date := Dashboard64.date e;
         Dashboard64.credits := Dashboard64.credits e;
         Dashboard64.debits :=
           Binary64.add (Dashboard64.debits e)
             (Dashboard64.Number (Transaction.amount t)) |}
  end.

(** A summary with one more transaction counted in it: the amount is added
    to the total of its kind and the profit is taken anew. *)
Definition countedIn (t : Transaction.Row) (s : Dashboard64.ProjectSummary)
  : Dashboard64.ProjectSummary :=
  let credits :=
    match Transaction.type t with
    | Transaction.credit =>
        Binary64.add (Dashboard64.totalCredits s)
          (Dashboard64.Number (Transaction.amount t))
    | Transaction.debit => Dashboard64.totalCredits s
    end in
  let debits :=
    match Transaction.type t with
    | Transaction.credit => Dashboard64.totalDebits s
    | Transaction.debit =>
        Binary64.add (Dashboard64.totalDebits s)
          (Dashboard64.Number (Transaction.amount t))
    end in
  {| Dashboard64.projectId := Dashboard64.projectId s;
     Dashboard64.projectName := Dashboard64.projectName s;
     Dashboard64.totalCredits := credits;
     Dashboard64.totalDebits := debits;
     Dashboard64.profit := Binary64.sub credits debits |}.

End Spec64.

Module Run64.

Import Eff.

(** The snapshot held by the hook after a run of [fetchData]. *)
Definition snapshot (env : Dashboard.Env) (w : Dashboard64.World)
  : Dashboard64.DashboardData :=
  Dashboard64.data (Dashboard64.state (exec (Dashboard64.fetchData env) w)).

Definition queriesAfter (env : Dashboard.Env) (w : Dashboard64.World)
  : list Dashboard.Query :=
  Dashboard64.queries (exec (Dashboard64.fetchData env) w).

Definition dashboardStart : Dashboard64.World :=
  {| Dashboard64.state := Dashboard64.initialState; Dashboard64.queries := [] |}.

(** A credit of 0.30 and debits of 0.10 and 0.20, all of one project. *)
Definition cents : list Transaction.Row :=
  [ Run.transaction "t1" "p1" Transaction.credit 30 "2025-10-27";
    Run.transaction "t2" "p1" Transaction.debit 10 "2025-10-27";
    Run.transaction "t3" "p1" Transaction.debit 20 "2025-10-27" ].

(** The same amounts with the second debit booked on another project. *)
Definition centsOfTwo : list Transaction.Row :=
  [ Run.transaction "t1" "p1" Transaction.credit 30 "2025-10-27";
    Run.transaction "t2" "p1" Transaction.debit 10 "2025-10-27";
    Run.transaction "t3" "p2" Transaction.debit 20 "2025-10-27" ].

(** Noon of the day of [Run.clock]: 2025-10-27T12:00:00Z. *)
Definition noon : Z := 1761566400000.

End Run64.

(* ===================================================================== *)
(** * Sums of amounts *)
(* ===================================================================== *)

Module SumFacts.

Lemma reduce_add_shift {A : Type} (f : A -> Z) (l : list A) (a : Z) :
  JS.reduce (fun sum x => sum + f x) a l
  = a + JS.reduce (fun sum x => sum + f x) 0 l.
Proof.
  unfold JS.reduce. revert a.
  induction l as [|x l IH]; intro a; simpl.
  - lia.
  - rewrite IH, (IH (f x)). lia.
Qed.

Lemma sumWhere_filter (P Q : Transaction.Row -> bool) (ts : list Transaction.Row) :
  Spec.sumWhere P (filter Q ts) = Spec.sumWhere (fun t => Q t && P t) ts.
Proof.
  induction ts as [|t ts IH]; simpl; [reflexivity|].
  destruct (Q t); simpl; rewrite IH; reflexivity.
Qed.




Lemma sumWhere_none (P : Transaction.Row -> bool) (ts : list Transaction.Row) :
  (forall t, In t ts -> P t = false) -> Spec.sumWhere P ts = 0.
Proof.
  induction ts as [|t ts IH]; simpl; intro H; [reflexivity|].
  rewrite (H t) by (left; reflexivity).
  rewrite IH; [reflexivity|].
  intros t' Ht'. apply H. right. exact Ht'.
Qed.

Lemma sumWhere_nonneg (P : Transaction.Row -> bool) (ts : list Transaction.Row) :
  (forall t, In t ts -> 0 <= Transaction.amount t) -> 0 <= Spec.sumWhere P ts.
Proof.
  induction ts as [|t ts IH]; simpl; intro H; [lia|].
  assert (0 <= Transaction.amount t) by (apply H; left; reflexivity).
  assert (0 <= Spec.sumWhere P ts) by (apply IH; intros; apply H; right; assumption).
  destruct (P t); lia.
Qed.

(** The [filter]/[reduce] chain of the source computes the sum the
    specification writes with a [Σ]. *)
Lemma sumOfKind_spec (k : Transaction.Kind) (ts : list Transaction.Row) :
  Dashboard.sumOfKind k ts
  = Spec.sumWhere (fun t => Transaction.Kind_eqb (Transaction.type t) k) ts.
Proof.
  unfold Dashboard.sumOfKind, Dashboard.Number.
  induction ts as [|t ts IH]; simpl; [reflexivity|].
  destruct (Transaction.Kind_eqb (Transaction.type t) k); simpl.
  - unfold JS.reduce in *. simpl.
    pose proof (reduce_add_shift Transaction.amount
                  (filter (fun t0 => Transaction.Kind_eqb (Transaction.type t0) k) ts)
                  (Transaction.amount t)) as E.
    unfold JS.reduce in E. rewrite E, IH. reflexivity.
  - exact IH.
Qed.

Lemma sumOfKind_filter (k : Transaction.Kind) (Q : Transaction.Row -> bool)
  (ts : list Transaction.Row) :
  Dashboard.sumOfKind k (filter Q ts)
  = Spec.sumWhere (fun t => Q t && Transaction.Kind_eqb (Transaction.type t) k) ts.
Proof.
  rewrite sumOfKind_spec. apply sumWhere_filter.
Qed.


End SumFacts.

(* ===================================================================== *)
(** * What a run of [fetchData] leaves in the hook *)
(* ===================================================================== *)

Module FetchFacts.

Import Eff.

Ltac run_fetch :=
  unfold Eff.exec, Dashboard.fetchData, Dashboard.aggregate,
    Dashboard.selectProjects, Dashboard.selectTransactions, Dashboard.send,
    Dashboard.setData, Dashboard.setLoading, Dashboard.setError,
    Eff.try_catch_finally, Eff.bind, Eff.modify, Eff.ret, Eff.throw_if_error,
    Eff.throw.

(** No project: the snapshot is reset and only the projects were asked for. *)
Lemma fetchData_no_project (env : Dashboard.Env) (w : Dashboard.World) :
  Dashboard.projectsResponse env = Run.ok [] ->
  exec (Dashboard.fetchData env) w
  = {| Dashboard.state :=
         {| Dashboard.data := Dashboard.emptyData;
            Dashboard.loading := false;
            Dashboard.error := None |};
       Dashboard.queries :=
         Dashboard.queries w ++ [Dashboard.SelectProjects (Dashboard.user env)] |}.
Proof.
  intro H. run_fetch. cbn beta iota zeta delta [fst snd].
  rewrite H. reflexivity.
Qed.

(** A null list of projects is treated like an empty one. *)
Lemma fetchData_null_projects (env : Dashboard.Env) (w : Dashboard.World) :
  Dashboard.projectsResponse env = {| Eff.data := None; Eff.error := None |} ->
  exec (Dashboard.fetchData env) w
  = {| Dashboard.state :=
         {| Dashboard.data := Dashboard.emptyData;
            Dashboard.loading := false;
            Dashboard.error := None |};
       Dashboard.queries :=
         Dashboard.queries w ++ [Dashboard.SelectProjects (Dashboard.user env)] |}.
Proof.
  intro H. run_fetch. cbn beta iota zeta delta [fst snd].
  rewrite H. reflexivity.
Qed.

(** A failed projects query: the error is recorded, the snapshot held before
    is kept, and the transactions are not asked for. *)
Lemma fetchData_projects_error (env : Dashboard.Env) (w : Dashboard.World)
  (msg : string) :
  Dashboard.projectsResponse env = Run.failed msg ->
  exec (Dashboard.fetchData env) w
  = {| Dashboard.state :=
         {| Dashboard.data := Dashboard.data (Dashboard.state w);
            Dashboard.loading := false;
            Dashboard.error :=
              Some (JS.or_string msg "Failed to load dashboard data") |};
       Dashboard.queries :=
         Dashboard.queries w ++ [Dashboard.SelectProjects (Dashboard.user env)] |}.
Proof.
  intro H. run_fetch. cbn beta iota zeta delta [fst snd].
  rewrite H. reflexivity.
Qed.

(** Some projects and an answer to the second query: the snapshot is the
    aggregate of the two answers. *)
Lemma fetchData_some_projects (env : Dashboard.Env) (w : Dashboard.World)
  (p : Project.Row) (ps : list Project.Row) (ts : list Transaction.Row) :
  Dashboard.projectsResponse env = Run.ok (p :: ps) ->
  Dashboard.transactionsResponse env (map Project.id (p :: ps)) = Run.ok ts ->
  exec (Dashboard.fetchData env) w
  = {| Dashboard.state :=
         {| Dashboard.data :=
              {| Dashboard.totalPortfolioBalance :=
                   Dashboard.computeTotalPortfolioBalance
                     (Dashboard.computeProjectsSummary (p :: ps) (Some ts));
                 Dashboard.totalProjects := Z.of_nat (List.length (p :: ps));
                 Dashboard.projectsSummary :=
                   Dashboard.computeProjectsSummary (p :: ps) (Some ts);
                 Dashboard.dailyStats :=
                   Dashboard.computeDailyStats (Some ts)
                     (Dashboard.last7Days (Dashboard.tz env) (Dashboard.now env));
                 Dashboard.weeklyStats := [];
                 Dashboard.monthlyStats := [] |};
            Dashboard.loading := false;
            Dashboard.error := None |};
       Dashboard.queries :=
         (Dashboard.queries w ++ [Dashboard.SelectProjects (Dashboard.user env)])
         ++ [Dashboard.SelectTransactions (map Project.id (p :: ps))] |}.
Proof.
  intros H1 H2. run_fetch. cbn beta iota zeta delta [fst snd].
  rewrite H1. cbn beta iota zeta delta [Run.ok Eff.error Eff.data fst snd].
  rewrite H2. reflexivity.
Qed.

End FetchFacts.

(* ===================================================================== *)
(** * Per-project summaries and the portfolio balance *)
(* ===================================================================== *)

Module SummaryFacts.

Import SumFacts.


Lemma balance_is_sumProfit (l : list Dashboard.ProjectSummary) :
  Dashboard.computeTotalPortfolioBalance l = Spec.sumProfit l.
Proof.
  unfold Dashboard.computeTotalPortfolioBalance.
  induction l as [|s l IH]; [reflexivity|].
  unfold JS.reduce in *. simpl.
  pose proof (reduce_add_shift Dashboard.profit l (Dashboard.profit s)) as E.
  unfold JS.reduce in E. rewrite E, IH. reflexivity.
Qed.











End SummaryFacts.

(* ===================================================================== *)
(** * The aggregation *)
(* ===================================================================== *)

Module Aggregation.

Import SumFacts SummaryFacts FetchFacts.

Lemma snapshot_no_project (env : Dashboard.Env) (w : Dashboard.World)
  (ts : list Transaction.Row) :
  Run.answers env [] ts -> Run.snapshot env w = Dashboard.emptyData.
Proof.
  intros [H _]. unfold Run.snapshot.
  rewrite (fetchData_no_project env w H). reflexivity.
Qed.

Lemma snapshot_some_projects (env : Dashboard.Env) (w : Dashboard.World)
  (p : Project.Row) (ps : list Project.Row) (ts : list Transaction.Row) :
  Run.answers env (p :: ps) ts ->
  Run.snapshot env w
  = {| Dashboard.totalPortfolioBalance :=
         Dashboard.computeTotalPortfolioBalance
           (Dashboard.computeProjectsSummary (p :: ps) (Some ts));
       Dashboard.totalProjects := Z.of_nat (List.length (p :: ps));
       Dashboard.projectsSummary :=
         Dashboard.computeProjectsSummary (p :: ps) (Some ts);
       Dashboard.dailyStats :=
         Dashboard.computeDailyStats (Some ts)
           (Dashboard.last7Days (Dashboard.tz env) (Dashboard.now env));
       Dashboard.weeklyStats := [];
       Dashboard.monthlyStats := [] |}.
Proof.
  intros [H1 H2]. unfold Run.snapshot.
  rewrite (fetchData_some_projects env w p ps ts H1 (H2 ltac:(discriminate))).
  reflexivity.
Qed.

Lemma answers_sample (ps : list Project.Row) (ts : list Transaction.Row)
  (now : Z) (tz : JS.TimeZone) :
  Run.answers (Run.dashboardEnv ps ts now tz) ps ts.
Proof. split; [reflexivity | intros _; reflexivity]. Qed.






(** C4: with an empty list of projects the snapshot is the all-zero, empty
    one, and the only request sent to the gateway is the query for the
    projects: no query for transactions is made. *)
Theorem C4_no_project_short_circuit (env : Dashboard.Env) (w : Dashboard.World) :
  Dashboard.projectsResponse env = Run.ok [] ->
  Run.snapshot env w
  = {| Dashboard.totalPortfolioBalance := 0;
       Dashboard.totalProjects := 0;
       Dashboard.projectsSummary := [];
       Dashboard.dailyStats := [];
       Dashboard.weeklyStats := [];
       Dashboard.monthlyStats := [] |}
  /\ Run.queriesAfter env w
     = Dashboard.queries w ++ [Dashboard.SelectProjects (Dashboard.user env)].
Proof.
  intro H. unfold Run.snapshot, Run.queriesAfter.
  rewrite (fetchData_no_project env w H). split; reflexivity.
Qed.

Lemma C4_no_project_witness :
  Run.snapshot (Run.dashboardEnv [] Run.ledger Run.clock Run.berlin) Run.dashboardStart
  = Dashboard.emptyData
  /\ Run.queriesAfter (Run.dashboardEnv [] Run.ledger Run.clock Run.berlin)
       Run.dashboardStart
     = [Dashboard.SelectProjects "u1"].
Proof.
  apply (C4_no_project_short_circuit
           (Run.dashboardEnv [] Run.ledger Run.clock Run.berlin) Run.dashboardStart).
  reflexivity.
Defined.

(** C5: [totalProjects] is the number of projects, and [projectsSummary]
    holds one entry per project, in the order of the projects, each with
    its project's identifier (a project without transactions included). *)
Theorem C5_one_summary_per_project (env : Dashboard.Env) (w : Dashboard.World)
  (ps : list Project.Row) (ts : list Transaction.Row) :
  Run.answers env ps ts ->
  Dashboard.totalProjects (Run.snapshot env w) = Z.of_nat (List.length ps)
  /\ List.length (Dashboard.projectsSummary (Run.snapshot env w)) = List.length ps
  /\ map Dashboard.projectId (Dashboard.projectsSummary (Run.snapshot env w))
     = map Project.id ps
  /\ Dashboard.projectsSummary (Run.snapshot env w)
     = map (Dashboard.summarize (Some ts)) ps.
Proof.
  intro Hans. destruct ps as [|p ps].
  - rewrite (snapshot_no_project env w ts Hans). repeat split; reflexivity.
  - rewrite (snapshot_some_projects env w p ps ts Hans).
    cbn [Dashboard.totalProjects Dashboard.projectsSummary].
    unfold Dashboard.computeProjectsSummary.
    split; [reflexivity|]. split; [apply length_map|].
    split; [|reflexivity].
    rewrite map_map. apply map_ext. intro q. reflexivity.
Qed.

Lemma C5_one_summary_per_project_witness :
  map Dashboard.projectId
    (Dashboard.projectsSummary
       (Run.snapshot
          (Run.dashboardEnv [Run.downtown; Run.harbour] Run.ledger Run.clock Run.kolkata)
          Run.dashboardStart))
  = ["p1"; "p2"].
Proof.
  apply (C5_one_summary_per_project
           (Run.dashboardEnv [Run.downtown; Run.harbour] Run.ledger Run.clock Run.kolkata)
           Run.dashboardStart [Run.downtown; Run.harbour] Run.ledger).
  apply answers_sample.
Defined.



Lemma sumOfKind_nonneg (k : Transaction.Kind) (Q : Transaction.Row -> bool)
  (ts : list Transaction.Row) :
  (forall t, In t ts -> 0 <= Transaction.amount t) ->
  0 <= Dashboard.sumOfKind k (filter Q ts).
Proof.
  intro H. rewrite sumOfKind_filter. apply sumWhere_nonneg. exact H.
Qed.

(** C9: when no transaction has a negative amount, every summary's
    [totalCredits] and [totalDebits] and every daily entry's [credits] and
    [debits] are non-negative. *)
Theorem C9_totals_nonnegative (env : Dashboard.Env) (w : Dashboard.World)
  (ps : list Project.Row) (ts : list Transaction.Row) :
  Run.answers env ps ts ->
  (forall t, In t ts -> 0 <= Transaction.amount t) ->
  Forall (fun s => 0 <= Dashboard.totalCredits s /\ 0 <= Dashboard.totalDebits s)
    (Dashboard.projectsSummary (Run.snapshot env w))
  /\ Forall (fun d => 0 <= Dashboard.credits d /\ 0 <= Dashboard.debits d)
       (Dashboard.dailyStats (Run.snapshot env w)).
Proof.
  intros Hans Hpos. destruct ps as [|p ps].
  - rewrite (snapshot_no_project env w ts Hans). split; constructor.
  - rewrite (snapshot_some_projects env w p ps ts Hans).
    cbn [Dashboard.projectsSummary Dashboard.dailyStats].
    unfold Dashboard.computeProjectsSummary, Dashboard.computeDailyStats.
    split; apply Forall_map, Forall_forall; intros x _;
      unfold Dashboard.summarize, Dashboard.dailyStat, JS.filter_or_empty;
      cbn [Dashboard.totalCredits Dashboard.totalDebits Dashboard.credits
             Dashboard.debits];
      split; apply sumOfKind_nonneg; exact Hpos.
Qed.

Lemma C9_totals_nonnegative_witness :
  Forall (fun s => 0 <= Dashboard.totalCredits s /\ 0 <= Dashboard.totalDebits s)
    (Dashboard.projectsSummary
       (Run.snapshot
          (Run.dashboardEnv [Run.downtown; Run.harbour] Run.ledger Run.clock Run.berlin)
          Run.dashboardStart))
  /\ Forall (fun d => 0 <= Dashboard.credits d /\ 0 <= Dashboard.debits d)
       (Dashboard.dailyStats
          (Run.snapshot
             (Run.dashboardEnv [Run.downtown; Run.harbour] Run.ledger Run.clock Run.berlin)
             Run.dashboardStart)).
Proof.
  apply (C9_totals_nonnegative _ Run.dashboardStart
           [Run.downtown; Run.harbour] Run.ledger).
  - apply answers_sample.
  - intros t Ht. simpl in Ht.
    destruct Ht as [<-|[<-|[<-|[]]]]; simpl; lia.
Defined.

(** Profit and balance, in contrast, can be negative. *)
Example profit_can_be_negative :
  Dashboard.totalPortfolioBalance
    (Run.snapshot
       (Run.dashboardEnv [Run.downtown]
          [Run.transaction "t1" "p1" Transaction.debit 120000 "2025-10-27"]
          Run.clock Run.kolkata)
       Run.dashboardStart)
  = -120000.
Proof. vm_compute. reflexivity. Qed.



End Aggregation.

(* ===================================================================== *)
(** * The calendar and the seven-day window *)
(* ===================================================================== *)

Module CalendarFacts.

Lemma Day_of_day (d : Z) : JS.Day (d * JS.msPerDay) = d.
Proof. unfold JS.Day, JS.msPerDay. apply Z.div_mul. discriminate. Qed.

Lemma Day_shift (t i : Z) : JS.Day (t - i * JS.msPerDay) = JS.Day t - i.
Proof.
  unfold JS.Day, JS.msPerDay.
  replace (t - i * 86400000) with (t + (- i) * 86400000) by lia.
  rewrite Z.div_add by discriminate. lia.
Qed.

(** [YearFromTime] is the largest year that starts at or before [t]. *)
Lemma YearFromTime_spec (t : Z) :
  JS.TimeFromYear (JS.YearFromTime t) <= t
  /\ t < JS.TimeFromYear (JS.YearFromTime t + 1).
Proof.
  assert (Hd : JS.DayFromYear (JS.YearFromTime t) <= JS.Day t
               /\ JS.Day t < JS.DayFromYear (JS.YearFromTime t + 1)).
  { unfold JS.YearFromTime. set (d := JS.Day t).
    cbv zeta.
    destruct (Z.leb_spec (JS.DayFromYear (1970 + 400 * d / 146097 + 1)) d) as [H1|H1];
      [|destruct (Z.leb_spec (JS.DayFromYear (1970 + 400 * d / 146097)) d) as [H2|H2]].
    - split; [exact H1|]. clear H1. unfold JS.DayFromYear.
      Z.div_mod_to_equations. lia.
    - split; [exact H2 | exact H1].
    - split.
      + clear H1 H2. unfold JS.DayFromYear. Z.div_mod_to_equations. lia.
      + replace (1970 + 400 * d / 146097 - 1 + 1) with (1970 + 400 * d / 146097) by lia.
        exact H2. }
  unfold JS.TimeFromYear, JS.Day, JS.msPerDay in *.
  destruct Hd as [Ha Hb].
  pose proof (Z.div_mod t 86400000 ltac:(discriminate)) as E.
  pose proof (Z.mod_pos_bound t 86400000 ltac:(lia)) as B.
  split; lia.
Qed.

Lemma MonthFromTime_range (t : Z) : 0 <= JS.MonthFromTime t <= 11.
Proof.
  unfold JS.MonthFromTime. cbv zeta.
  repeat match goal with
         | |- context [if ?c then _ else _] => destruct c
         end; lia.
Qed.

(** Setting the day of the month to [DateFromTime t - i] lands [i] days
    before the day of [t]. *)
Lemma MakeDay_back (t i : Z) :
  JS.MakeDay (JS.YearFromTime t) (JS.MonthFromTime t) (JS.DateFromTime t - i)
  = JS.Day t - i.
Proof.
  pose proof (MonthFromTime_range t) as Hm.
  unfold JS.MakeDay. cbv zeta.
  rewrite Z.div_small, Z.mod_small, Z.add_0_r by lia.
  unfold JS.DateFromTime, JS.InLeapYear, JS.DayWithinYear. lia.
Qed.

Lemma MakeDate_back (t i : Z) :
  JS.MakeDate (JS.Day t - i) (JS.TimeWithinDay t) = t - i * JS.msPerDay.
Proof.
  unfold JS.MakeDate, JS.Day, JS.TimeWithinDay, JS.msPerDay.
  pose proof (Z.div_mod t 86400000 ltac:(discriminate)). lia.
Qed.

(** In a zone with a constant offset, [setDate(getDate() - i)] moves the
    time value back by exactly [i] days. *)
Lemma setDate_fixedZone (offset now i : Z) :
  JS.setDate (Run.fixedZone offset) now
    (JS.getDate (Run.fixedZone offset) now - i)
  = now - i * JS.msPerDay.
Proof.
  unfold JS.setDate, JS.getDate, JS.LocalTime, JS.UTC, Run.fixedZone.
  cbn [JS.offsetAtUTC JS.offsetAtLocal]. cbv zeta.
  rewrite MakeDay_back, MakeDate_back. lia.
Qed.

Lemma isoDatePart_Day (t1 t2 : Z) :
  JS.Day t1 = JS.Day t2 -> JS.isoDatePart t1 = JS.isoDatePart t2.
Proof.
  intro H.
  assert (Hy : JS.YearFromTime t1 = JS.YearFromTime t2)
    by (unfold JS.YearFromTime; rewrite H; reflexivity).
  assert (Hl : JS.InLeapYear t1 = JS.InLeapYear t2)
    by (unfold JS.InLeapYear; rewrite Hy; reflexivity).
  assert (Hw : JS.DayWithinYear t1 = JS.DayWithinYear t2)
    by (unfold JS.DayWithinYear; rewrite H, Hy; reflexivity).
  assert (Hm : JS.MonthFromTime t1 = JS.MonthFromTime t2)
    by (unfold JS.MonthFromTime; rewrite Hw, Hl; reflexivity).
  unfold JS.isoDatePart, JS.DateFromTime. rewrite Hy, Hm, Hw, Hl. reflexivity.
Qed.

Lemma append_assoc (a b c : string) :
  ((a ++ b) ++ c = a ++ (b ++ c))%string.
Proof.
  induction a as [|x a IH]; simpl; [reflexivity|]. rewrite IH. reflexivity.
Qed.

Lemma digitChar_not_T (n : Z) : Ascii.eqb (JS.digitChar (n mod 10)) "T" = false.
Proof.
  pose proof (Z.mod_pos_bound n 10 ltac:(lia)) as B.
  assert (C : n mod 10 = 0 \/ n mod 10 = 1 \/ n mod 10 = 2 \/ n mod 10 = 3
              \/ n mod 10 = 4 \/ n mod 10 = 5 \/ n mod 10 = 6 \/ n mod 10 = 7
              \/ n mod 10 = 8 \/ n mod 10 = 9) by lia.
  repeat (destruct C as [C|C]; [rewrite C; reflexivity|]).
  rewrite C. reflexivity.
Qed.

Lemma split_head_digits (w : nat) (n : Z) (r : string) :
  JS.split_head "T" (JS.digits w n ++ r)%string
  = (JS.digits w n ++ JS.split_head "T" r)%string.
Proof.
  revert n r. induction w as [|w IH]; intros n r; [reflexivity|].
  cbn [JS.digits]. rewrite !append_assoc. rewrite IH.
  cbn [String.append JS.split_head]. rewrite digitChar_not_T. reflexivity.
Qed.

Lemma split_head_yearString (y : Z) (r : string) :
  JS.split_head "T" (JS.yearString y ++ r)%string
  = (JS.yearString y ++ JS.split_head "T" r)%string.
Proof.
  unfold JS.yearString.
  destruct ((0 <=? y) && (y <=? 9999)); [apply split_head_digits|].
  destruct (y <? 0); cbn [String.append JS.split_head Ascii.eqb Bool.eqb];
    rewrite split_head_digits; reflexivity.
Qed.

(** [toISOString().split('T')[0]] is the date part. *)
Lemma split_head_toISOString (t : Z) :
  JS.split_head "T" (JS.toISOString t) = JS.isoDatePart t.
Proof.
  unfold JS.toISOString, JS.isoDatePart.
  rewrite !append_assoc, split_head_yearString.
  cbn [String.append JS.split_head Ascii.eqb Bool.eqb].
  rewrite split_head_digits.
  cbn [String.append JS.split_head Ascii.eqb Bool.eqb].
  rewrite split_head_digits.
  cbn [String.append JS.split_head Ascii.eqb Bool.eqb]. reflexivity.
Qed.

End CalendarFacts.

Module DailyWindow.

Import CalendarFacts FetchFacts.

(** The window always has seven entries, one per generated date, and a
    date without transactions has an entry with two zeros. *)
Lemma dailyStats_seven_entries (tz : JS.TimeZone) (now : Z)
  (transactions : option (list Transaction.Row)) :
  List.length (Dashboard.last7Days tz now) = 7%nat
  /\ List.length
       (Dashboard.computeDailyStats transactions (Dashboard.last7Days tz now))
     = 7%nat
  /\ map Dashboard.date
       (Dashboard.computeDailyStats transactions (Dashboard.last7Days tz now))
     = Dashboard.last7Days tz now.
Proof.
  assert (H : List.length (Dashboard.last7Days tz now) = 7%nat).
  { unfold Dashboard.last7Days, JS.Array_from, JS.indices.
    rewrite length_rev, !length_map, length_seq. reflexivity. }
  unfold Dashboard.computeDailyStats.
  split; [exact H|]. split; [rewrite length_map; exact H|].
  rewrite map_map. cbn [Dashboard.dailyStat Dashboard.date]. apply map_id.
Qed.

Lemma dailyStat_no_transaction (ts : list Transaction.Row) (d : string) :
  existsb (Spec.datedOn d) ts = false ->
  Dashboard.dailyStat (Some ts) d
  = {| Dashboard.date := d; Dashboard.credits := 0; Dashboard.debits := 0 |}.
Proof.
  intro Hnone. unfold Dashboard.dailyStat, JS.filter_or_empty.
  rewrite !SumFacts.sumOfKind_filter.
  rewrite !SumFacts.sumWhere_none; [reflexivity| |];
    intros t Ht;
    (assert (E : Spec.datedOn d t = false);
     [ destruct (Spec.datedOn d t) eqn:E; [|reflexivity];
       assert (existsb (Spec.datedOn d) ts = true)
         by (apply existsb_exists; exists t; split; assumption);
       congruence
     | unfold Spec.datedOn in E; rewrite E; reflexivity ]).
Qed.

Lemma date_back (now i : Z) :
  JS.isoDatePart (now - i * JS.msPerDay) = Spec.dateOfDay (JS.Day now - i).
Proof.
  unfold Spec.dateOfDay. apply isoDatePart_Day.
  rewrite Day_shift, Day_of_day. reflexivity.
Qed.

(** In a zone whose offset never changes, the generated dates are the seven
    consecutive calendar days that end on the UTC day of the clock
    reading. *)
Lemma last7Days_fixedZone (offset now : Z) :
  Dashboard.last7Days (Run.fixedZone offset) now
  = Spec.windowEndingOn (JS.Day now).
Proof.
  unfold Dashboard.last7Days, Spec.windowEndingOn, JS.Array_from.
  change (JS.indices 7) with [0; 1; 2; 3; 4; 5; 6].
  cbn [map rev app]. cbv zeta.
  rewrite !setDate_fixedZone, !split_head_toISOString, !date_back.
  repeat match goal with
         | |- _ :: _ = _ :: _ =>
             apply (f_equal2 (@cons string));
             [apply (f_equal Spec.dateOfDay); lia|]
         end.
  reflexivity.
Qed.

(** On a host whose zone has a constant offset the snapshot holds seven
    entries, dated with the seven consecutive days that end on the UTC day
    of the clock reading. *)
Lemma dailyStats_fixedZone (env : Dashboard.Env) (w : Dashboard.World)
  (p : Project.Row) (ps : list Project.Row) (ts : list Transaction.Row)
  (offset : Z) :
  Run.answers env (p :: ps) ts ->
  Dashboard.tz env = Run.fixedZone offset ->
  List.length (Dashboard.dailyStats (Run.snapshot env w)) = 7%nat
  /\ map Dashboard.date (Dashboard.dailyStats (Run.snapshot env w))
     = Spec.windowEndingOn (JS.Day (Dashboard.now env)).
Proof.
  intros Hans Htz.
  rewrite (Aggregation.snapshot_some_projects env w p ps ts Hans).
  cbn [Dashboard.dailyStats].
  destruct (dailyStats_seven_entries (Dashboard.tz env) (Dashboard.now env) (Some ts))
    as (_ & Hlen & Hdates).
  split; [exact Hlen|].
  rewrite Hdates, Htz. apply last7Days_fixedZone.
Qed.

(** C3: on a host in central Europe, during the first hour (UTC) of the
    day after the clocks went back, the seven generated dates are not
    consecutive: the window jumps from 2025-10-25 to 2025-10-27 and has no
    entry for 2025-10-26, although the seven days ending on the reference
    date are 2025-10-21 to 2025-10-27. *)
Theorem C3_window_skips_a_day_after_clocks_go_back :
  map Dashboard.date
    (Dashboard.dailyStats
       (Run.snapshot
          (Run.dashboardEnv [Run.downtown] Run.ledger Run.clock Run.berlin)
          Run.dashboardStart))
  = ["2025-10-20"; "2025-10-21"; "2025-10-22"; "2025-10-23"; "2025-10-24";
     "2025-10-25"; "2025-10-27"]
  /\ Spec.windowEndingOn (JS.Day Run.clock)
     = ["2025-10-21"; "2025-10-22"; "2025-10-23"; "2025-10-24"; "2025-10-25";
        "2025-10-26"; "2025-10-27"]
  /\ JS.toISOString Run.clock = "2025-10-27T00:30:00.000Z".
Proof. repeat split; vm_compute; reflexivity. Qed.

(** After the clocks went forward the same code yields a date twice. *)
Example window_repeats_a_day_after_clocks_go_forward :
  Dashboard.last7Days Run.berlin Run.springClock
  = ["2025-03-27"; "2025-03-28"; "2025-03-29"; "2025-03-30"; "2025-03-30";
     "2025-03-31"; "2025-04-01"]
  /\ JS.toISOString Run.springClock = "2025-04-01T23:30:00.000Z".
Proof. split; vm_compute; reflexivity. Qed.

(** The scenario of the specification, on a host in India. *)
Example scenario_downtown_office :
  Run.snapshot
    (Run.dashboardEnv [Run.downtown] Run.ledger Run.clock Run.kolkata)
    Run.dashboardStart
  = {| Dashboard.totalPortfolioBalance := 350000;
       Dashboard.totalProjects := 1;
       Dashboard.projectsSummary :=
         [ {| Dashboard.projectId := "p1";
              Dashboard.projectName := "Downtown Office";
              Dashboard.totalCredits := 500000;
              Dashboard.totalDebits := 150000;
              Dashboard.profit := 350000 |} ];
       Dashboard.dailyStats :=
         [ {| Dashboard.date := "2025-10-21"; Dashboard.credits := 0; Dashboard.debits := 0 |};
           {| Dashboard.date := "2025-10-22"; Dashboard.credits := 0; Dashboard.debits := 0 |};
           {| Dashboard.date := "2025-10-23"; Dashboard.credits := 0; Dashboard.debits := 0 |};
           {| Dashboard.date := "2025-10-24"; Dashboard.credits := 0; Dashboard.debits := 0 |};
           {| Dashboard.date := "2025-10-25"; Dashboard.credits := 0; Dashboard.debits := 30000 |};
           {| Dashboard.date := "2025-10-26"; Dashboard.credits := 0; Dashboard.debits := 0 |};
           {| Dashboard.date := "2025-10-27"; Dashboard.credits := 500000; Dashboard.debits := 120000 |} ];
       Dashboard.weeklyStats := [];
       Dashboard.monthlyStats := [] |}.
Proof. vm_compute. reflexivity. Qed.

End DailyWindow.

(* ===================================================================== *)
(** * Validation in the two forms *)
(* ===================================================================== *)

Module Validation.

Import Eff.


Lemma not_string_false (s : string) : JS.not_string s = false <-> s <> "".
Proof. destruct s; simpl; split; intro H; congruence. Qed.

Ltac run_transaction :=
  unfold Eff.exec, ProjectDetailScreen.handleCreateTransaction,
    ProjectDetailScreen.insert, ProjectDetailScreen.perform,
    ProjectDetailScreen.setCreating, ProjectDetailScreen.setModalVisible,
    ProjectDetailScreen.setFormData,
    Eff.try_catch_finally, Eff.bind, Eff.modify, Eff.gets, Eff.ret,
    Eff.throw_if_error, Eff.throw;
  cbn beta iota zeta delta [fst snd].


(** The row [handleCreateTransaction] submits. *)
Lemma transaction_submitted (env : ProjectDetailScreen.Env)
  (w : ProjectDetailScreen.World) :
  let f := ProjectDetailScreen.formData (ProjectDetailScreen.state w) in
  ProjectDetailScreen.amount f <> "" ->
  ProjectDetailScreen.description f <> "" ->
  JS.isNaN (JS.parseFloat (ProjectDetailScreen.amount f)) = false ->
  JS.le_zero (JS.parseFloat (ProjectDetailScreen.amount f)) = false ->
  exists rest,
    ProjectDetailScreen.effects
      (exec (ProjectDetailScreen.handleCreateTransaction env) w)
    = ProjectDetailScreen.effects w
      ++ ProjectDetailScreen.Insert
           {| TransactionInsert.project_id := ProjectDetailScreen.id env;
              TransactionInsert.type :=
                ProjectDetailScreen.transactionType (ProjectDetailScreen.state w);
              TransactionInsert.amount :=
                JS.parseFloat (ProjectDetailScreen.amount f);
              TransactionInsert.description := ProjectDetailScreen.description f;
              TransactionInsert.category := ProjectDetailScreen.category f;
              TransactionInsert.transaction_date :=
                ProjectDetailScreen.transaction_date f |}
         :: rest.
Proof.
  intros f Ha Hd Hn Hz. subst f.
  apply not_string_false in Ha. apply not_string_false in Hd.
  run_transaction. rewrite Ha, Hd, Hn, Hz. cbn [orb].
  match goal with
  | |- context [ProjectDetailScreen.insertResponse env ?r] =>
      destruct (Eff.error (ProjectDetailScreen.insertResponse env r))
  end; cbn; rewrite <- app_assoc; eexists; reflexivity.
Qed.








(** A negative amount too small for binary64 is read as [-0], which is not
    below 0, and is submitted. *)
Example negative_underflow_is_submitted :
  JS.parseFloat "-1e-400" = JS.Zero true
  /\ ProjectsScreen.effects
       (exec (ProjectsScreen.handleCreateProject Run.projectsEnv)
          (Run.projectsWorld "Harbour Bridge" "Pune" "Commercial" "-1e-400"))
     = [ ProjectsScreen.Insert
           {| ProjectInsert.user_id := "u1";
              ProjectInsert.name := "Harbour Bridge";
              ProjectInsert.location := "Pune";
              ProjectInsert.project_type := "Commercial";
              ProjectInsert.base_contract_amount := JS.Zero true |};
         ProjectsScreen.FetchProjects ].
Proof. split; vm_compute; reflexivity. Qed.

(** What [parseFloat] and [Spec.numeric] make of some texts. *)
Example parseFloat_samples :
  map JS.parseFloat ["-5"; ""; "abc"; "12abc"; "1.2.3"; " .5e3x"; "5."; "."; "0"]
  = [ JS.Finite true 5 0; JS.NaN; JS.NaN; JS.Finite false 12 0;
      JS.Finite false 12 (-1); JS.Finite false 5 2; JS.Finite false 5 0;
      JS.NaN; JS.Zero false ]
  /\ map Spec.numeric ["-5"; ""; "abc"; "12abc"; "1.2.3"; " .5e3x"; "5."; "."; "0"; " 12 "]
     = [true; false; false; false; false; false; true; false; true; true].
Proof. split; vm_compute; reflexivity. Qed.

End Validation.

(* ===================================================================== *)
(** * Dates written and read back *)
(* ===================================================================== *)

Module DateRoundTrip.

Import CalendarFacts.

Lemma DayFromYear_next (y : Z) :
  JS.DayFromYear (y + 1) = JS.DayFromYear y + JS.DaysInYear y.
Proof.
  unfold JS.DayFromYear, JS.DaysInYear.
  destruct (Z.eqb_spec (y mod 4) 0); cbn [negb];
    [destruct (Z.eqb_spec (y mod 100) 0); cbn [negb];
       [destruct (Z.eqb_spec (y mod 400) 0); cbn [negb]|]|];
    Z.div_mod_to_equations; lia.
Qed.

Lemma Day_year_bounds (t : Z) :
  JS.DayFromYear (JS.YearFromTime t) <= JS.Day t
  < JS.DayFromYear (JS.YearFromTime t + 1).
Proof.
  pose proof (YearFromTime_spec t) as [Ha Hb].
  unfold JS.TimeFromYear, JS.Day, JS.msPerDay in *.
  Z.div_mod_to_equations. lia.
Qed.

Lemma DayWithinYear_bounds (t : Z) :
  0 <= JS.DayWithinYear t < JS.DaysInYear (JS.YearFromTime t).
Proof.
  pose proof (Day_year_bounds t) as H. rewrite DayFromYear_next in H.
  unfold JS.DayWithinYear. lia.
Qed.

(** The day of the month lies within its month. *)
Lemma DateFromTime_bounds (t : Z) :
  1 <= JS.DateFromTime t
  <= DateParse.DaysInMonth (JS.YearFromTime t) (JS.MonthFromTime t).
Proof.
  pose proof (DayWithinYear_bounds t) as H.
  unfold JS.DateFromTime, DateParse.DaysInMonth, DateParse.leapOf,
    JS.MonthFromTime, JS.InLeapYear in *.
  set (d := JS.DayWithinYear t) in *.
  set (Y := JS.YearFromTime t) in *.
  assert (Hl : JS.DaysInYear Y = 365 \/ JS.DaysInYear Y = 366).
  { unfold JS.DaysInYear.
    destruct (negb (Y mod 4 =? 0)), (negb (Y mod 100 =? 0)),
      (negb (Y mod 400 =? 0)); auto. }
  cbv zeta.
  destruct Hl as [Hl|Hl]; rewrite Hl in *; cbn [Z.eqb Pos.eqb];
    repeat match goal with
           | |- context [if ?a <? ?b then _ else _] =>
               destruct (Z.ltb_spec a b)
           end; cbn; lia.
Qed.

(** The year of a clock reading between the start of the year 0 and the
    end of the year 9999 has four digits. *)
Lemma YearFromTime_four_digits (t : Z) :
  -62167219200000 <= t < 253402300800000 ->
  0 <= JS.YearFromTime t <= 9999.
Proof.
  intro Ht. pose proof (Day_year_bounds t) as H.
  assert (Hd : -719528 <= JS.Day t < 2932897).
  { unfold JS.Day, JS.msPerDay. Z.div_mod_to_equations. lia. }
  unfold JS.DayFromYear in H. Z.div_mod_to_equations. lia.
Qed.

Lemma digitValue_digitChar (n : Z) :
  JS.digitValue (JS.digitChar (n mod 10)) = Some (Z.to_N (n mod 10)).
Proof.
  pose proof (Z.mod_pos_bound n 10 ltac:(lia)) as B.
  assert (C : n mod 10 = 0 \/ n mod 10 = 1 \/ n mod 10 = 2 \/ n mod 10 = 3
              \/ n mod 10 = 4 \/ n mod 10 = 5 \/ n mod 10 = 6 \/ n mod 10 = 7
              \/ n mod 10 = 8 \/ n mod 10 = 9) by lia.
  repeat (destruct C as [C|C]; [rewrite C; reflexivity|]).
  rewrite C. reflexivity.
Qed.

Lemma readDigits_one_more (w : nat) (acc : Z) (s : string) :
  DateParse.readDigits (S w) acc s
  = match DateParse.readDigits w acc s with
    | Some (v, String c r) =>
        match JS.digitValue c with
        | Some d => Some (10 * v + Z.of_N d, r)
        | None => None
        end
    | _ => None
    end.
Proof.
  revert acc s. induction w as [|w IH]; intros acc s.
  - cbn [DateParse.readDigits]. destruct s as [|c r]; [reflexivity|].
    destruct (JS.digitValue c); reflexivity.
  - destruct s as [|c r]; [reflexivity|].
    change (DateParse.readDigits (S (S w)) acc (String c r))
      with (match JS.digitValue c with
            | Some d => DateParse.readDigits (S w) (10 * acc + Z.of_N d) r
            | None => None
            end).
    change (DateParse.readDigits (S w) acc (String c r))
      with (match JS.digitValue c with
            | Some d => DateParse.readDigits w (10 * acc + Z.of_N d) r
            | None => None
            end).
    destruct (JS.digitValue c) as [d|]; [|reflexivity].
    apply IH.
Qed.

(** Reading back what [digits] wrote. *)
Lemma readDigits_digits (w : nat) (n acc : Z) (r : string) :
  0 <= n < 10 ^ Z.of_nat w ->
  DateParse.readDigits w acc (JS.digits w n ++ r)%string
  = Some (acc * 10 ^ Z.of_nat w + n, r).
Proof.
  revert n acc r. induction w as [|w IH]; intros n acc r Hn.
  - cbn in *. f_equal. f_equal. lia.
  - rewrite readDigits_one_more. cbn [JS.digits].
    rewrite append_assoc. cbn [String.append].
    assert (Hp : 10 ^ Z.of_nat (S w) = 10 * 10 ^ Z.of_nat w).
    { rewrite Nat2Z.inj_succ, Z.pow_succ_r by lia. reflexivity. }
    rewrite Hp in Hn.
    rewrite IH by (Z.div_mod_to_equations; lia).
    rewrite digitValue_digitChar, Hp.
    pose proof (Z.mod_pos_bound n 10 ltac:(lia)).
    rewrite Z2N.id by lia.
    f_equal. f_equal. Z.div_mod_to_equations. lia.
Qed.

(** [new Date(date)] applied to the date part of [toISOString] gives the
    start of that UTC day, for years written with four digits. *)
Lemma parseDateOnly_isoDatePart (t : Z) :
  0 <= JS.YearFromTime t <= 9999 ->
  DateParse.parseDateOnly (JS.isoDatePart t) = Some (JS.Day t * JS.msPerDay).
Proof.
  intro Hy.
  pose proof (MonthFromTime_range t) as Hm.
  pose proof (DateFromTime_bounds t) as Hd.
  assert (Hlen : DateParse.DaysInMonth (JS.YearFromTime t) (JS.MonthFromTime t) <= 31).
  { unfold DateParse.DaysInMonth, DateParse.leapOf, JS.firstDayOfMonth.
    destruct (JS.DaysInYear (JS.YearFromTime t) =? 366);
      repeat match goal with
             | |- context [if ?a =? ?b then _ else _] =>
                 destruct (Z.eqb_spec a b)
             end; lia. }
  unfold DateParse.parseDateOnly, JS.isoDatePart, JS.yearString.
  replace ((0 <=? JS.YearFromTime t) && (JS.YearFromTime t <=? 9999)) with true
    by (symmetry; apply andb_true_intro; split; apply Z.leb_le; lia).
  rewrite readDigits_digits by (cbn; lia).
  cbn [String.append DateParse.expect Ascii.eqb Bool.eqb].
  rewrite readDigits_digits by (cbn; lia).
  cbn [String.append DateParse.expect Ascii.eqb Bool.eqb].
  replace (JS.digits 2 (JS.DateFromTime t))
    with (JS.digits 2 (JS.DateFromTime t) ++ "")%string
    by (generalize (JS.digits 2 (JS.DateFromTime t)); intro s;
        induction s as [|c s IH]; cbn; [reflexivity | rewrite IH; reflexivity]).
  rewrite readDigits_digits by (cbn; lia).
  replace (0 * 10 ^ Z.of_nat 4 + JS.YearFromTime t) with (JS.YearFromTime t) by lia.
  replace (0 * 10 ^ Z.of_nat 2 + (JS.MonthFromTime t + 1))
    with (JS.MonthFromTime t + 1) by lia.
  replace (0 * 10 ^ Z.of_nat 2 + JS.DateFromTime t) with (JS.DateFromTime t) by lia.
  replace (JS.MonthFromTime t + 1 - 1) with (JS.MonthFromTime t) by lia.
  replace ((1 <=? JS.MonthFromTime t + 1) && (JS.MonthFromTime t + 1 <=? 12)
           && (1 <=? JS.DateFromTime t)
           && (JS.DateFromTime t
               <=? DateParse.DaysInMonth (JS.YearFromTime t) (JS.MonthFromTime t)))
    with true
    by (symmetry; repeat (apply andb_true_intro; split); apply Z.leb_le; lia).
  pose proof (MakeDay_back t 0) as E. rewrite Z.sub_0_r in E.
  rewrite E, Z.sub_0_r. unfold JS.MakeDate. f_equal. lia.
Qed.

End DateRoundTrip.

(* ===================================================================== *)
(** * Every run of the hook's [fetchData] *)
(* ===================================================================== *)

Module HookRuns.

Import Eff FetchFacts.

Ltac settle :=
  cbv beta iota zeta delta
    [Eff.exec Eff.try_catch_finally Eff.bind Eff.modify Eff.ret
     Eff.throw_if_error Eff.throw Eff.error Eff.data fst snd Run.ok
     Dashboard.setData Dashboard.setLoading Dashboard.setError Dashboard.send
     Dashboard.state Dashboard.queries Dashboard.data Dashboard.loading
     Dashboard.error].

Lemma default_message_not_empty (m d : string) :
  d <> "" -> JS.not_string (JS.or_string m d) = false.
Proof.
  intro Hd. unfold JS.or_string. destruct m; cbn; [|reflexivity].
  destruct d; [congruence | reflexivity].
Qed.

(** X1: A run of [fetchData] never throws and always ends with [loading]
    false.  It asks for the projects first and then, only when it received
    a non-empty list without an error, for the transactions of exactly
    those projects. *)
Theorem fetchData_settles (env : Dashboard.Env) (w : Dashboard.World) :
  fst (Dashboard.fetchData env w) = Returned tt
  /\ Dashboard.loading (Dashboard.state (exec (Dashboard.fetchData env) w)) = false
  /\ (Run.queriesAfter env w
      = Dashboard.queries w ++ [Dashboard.SelectProjects (Dashboard.user env)]
      \/ exists p ps,
           Eff.data (Dashboard.projectsResponse env) = Some (p :: ps)
           /\ Eff.error (Dashboard.projectsResponse env) = None
           /\ Run.queriesAfter env w
              = Dashboard.queries w
                ++ [Dashboard.SelectProjects (Dashboard.user env);
                    Dashboard.SelectTransactions (map Project.id (p :: ps))]).
Proof.
  unfold Run.queriesAfter. run_fetch.
  destruct (Dashboard.projectsResponse env) as [d [e|]].
  - settle. repeat split. left. reflexivity.
  - destruct d as [[|p ps]|].
    + settle. repeat split. left. reflexivity.
    + settle.
      destruct (Dashboard.transactionsResponse env (map Project.id (p :: ps)))
        as [d2 [e2|]]; settle;
        (split; [reflexivity|]; split; [reflexivity|]; right; exists p, ps;
         split; [reflexivity|]; split; [reflexivity|];
         rewrite <- app_assoc; reflexivity).
    + settle. repeat split. left. reflexivity.
Qed.

(** X2: When either query fails, the snapshot the hook held before is kept as
    it is, [error] becomes the gateway's message, or the default text when
    the message is empty, and the dashboard screen shows that text instead
    of the snapshot. *)
Theorem fetchData_failure_keeps_snapshot (env : Dashboard.Env)
  (w : Dashboard.World) (e : Error) :
  Eff.error (Dashboard.projectsResponse env) = Some e
  \/ (exists p ps,
        Dashboard.projectsResponse env = Run.ok (p :: ps)
        /\ Eff.error (Dashboard.transactionsResponse env (map Project.id (p :: ps)))
           = Some e) ->
  let after := Dashboard.state (exec (Dashboard.fetchData env) w) in
  Dashboard.data after = Dashboard.data (Dashboard.state w)
  /\ Dashboard.error after
     = Some (JS.or_string (message e) "Failed to load dashboard data")
  /\ Dashboard.loading after = false
  /\ forall refreshing,
       DashboardScreen.view after refreshing
       = DashboardScreen.ErrorView
           (JS.or_string (message e) "Failed to load dashboard data").
Proof.
  intros H after.
  assert (E : after
              = {| Dashboard.data := Dashboard.data (Dashboard.state w);
                   Dashboard.loading := false;
                   Dashboard.error :=
                     Some (JS.or_string (message e) "Failed to load dashboard data") |}).
  { subst after. run_fetch.
    destruct H as [H|(p & ps & H1 & H2)].
    - destruct (Dashboard.projectsResponse env) as [d e'].
      cbn [Eff.error] in H. subst e'. settle. reflexivity.
    - rewrite H1. settle.
      destruct (Dashboard.transactionsResponse env (map Project.id (p :: ps)))
        as [d2 e2]. cbn [Eff.error] in H2. subst e2. settle. reflexivity. }
  rewrite E. cbn [Dashboard.data Dashboard.error Dashboard.loading].
  repeat split. intro refreshing. unfold DashboardScreen.view.
  cbn [Dashboard.loading Dashboard.error andb].
  rewrite default_message_not_empty by discriminate. reflexivity.
Qed.

Lemma fetchData_failure_witness :
  Dashboard.data
    (Dashboard.state (exec (Dashboard.fetchData Samples.projectsDown)
                        Samples.dashboardLoaded))
  = Dashboard.data (Dashboard.state Samples.dashboardLoaded)
  /\ Dashboard.error
       (Dashboard.state (exec (Dashboard.fetchData Samples.projectsDown)
                           Samples.dashboardLoaded))
     = Some "network down".
Proof.
  pose proof (fetchData_failure_keeps_snapshot Samples.projectsDown
                Samples.dashboardLoaded {| message := "network down" |}
                (or_introl eq_refl)) as H.
  cbv zeta in H. destruct H as (H1 & H2 & _). split; [exact H1 | exact H2].
Defined.

(** X3: After a run, [error] is empty exactly when no query of the run failed:
    a successful run clears an earlier error. *)
Theorem fetchData_error_iff_query_failed (env : Dashboard.Env)
  (w : Dashboard.World) :
  Dashboard.error (Dashboard.state (exec (Dashboard.fetchData env) w)) = None
  <-> (Eff.error (Dashboard.projectsResponse env) = None
       /\ forall p ps,
            Eff.data (Dashboard.projectsResponse env) = Some (p :: ps) ->
            Eff.error (Dashboard.transactionsResponse env (map Project.id (p :: ps)))
            = None).
Proof.
  run_fetch.
  destruct (Dashboard.projectsResponse env) as [d [e|]].
  - settle. split; [discriminate | intros [H _]; discriminate].
  - destruct d as [[|p ps]|].
    + settle. split; [intros _; split; [reflexivity | discriminate] | reflexivity].
    + settle.
      destruct (Dashboard.transactionsResponse env (map Project.id (p :: ps)))
        as [d2 [e2|]] eqn:E2; settle.
      * split; [discriminate|]. intros [_ H].
        specialize (H p ps eq_refl). rewrite E2 in H. discriminate.
      * split; [|reflexivity]. intros _. split; [reflexivity|].
        intros p' ps' [= <- <-]. rewrite E2. reflexivity.
    + settle. split; [intros _; split; [reflexivity | discriminate] | reflexivity].
Qed.

Lemma zero_profits_balance (l : list Dashboard.ProjectSummary) :
  Forall (fun s => Dashboard.profit s = 0) l ->
  Dashboard.computeTotalPortfolioBalance l = 0.
Proof.
  rewrite SummaryFacts.balance_is_sumProfit.
  induction 1 as [|s l Hs _ IH]; cbn; [reflexivity | lia].
Qed.

(** X4: A transactions answer without rows and without an error counts as no
    transaction: every project gets a summary of zeros, the balance is 0,
    and the seven daily entries are all zero. *)
Theorem fetchData_null_transactions (env : Dashboard.Env) (w : Dashboard.World)
  (p : Project.Row) (ps : list Project.Row) :
  Dashboard.projectsResponse env = Run.ok (p :: ps) ->
  Dashboard.transactionsResponse env (map Project.id (p :: ps))
  = {| Eff.data := None; Eff.error := None |} ->
  Run.snapshot env w
  = {| Dashboard.totalPortfolioBalance := 0;
       Dashboard.totalProjects := Z.of_nat (List.length (p :: ps));
       Dashboard.projectsSummary :=
         map (fun q => {| Dashboard.projectId := Project.id q;
                          Dashboard.projectName := Project.name q;
                          Dashboard.totalCredits := 0;
                          Dashboard.totalDebits := 0;
                          Dashboard.profit := 0 |}) (p :: ps);
       Dashboard.dailyStats :=
         map (fun d => {| Dashboard.date := d; Dashboard.credits := 0;
                          Dashboard.debits := 0 |})
           (Dashboard.last7Days (Dashboard.tz env) (Dashboard.now env));
       Dashboard.weeklyStats := [];
       Dashboard.monthlyStats := [] |}.
Proof.
  intros H1 H2. unfold Run.snapshot. run_fetch.
  rewrite H1. settle. rewrite H2. settle.
  assert (Hs : Dashboard.computeProjectsSummary (p :: ps) None
               = map (fun q => {| Dashboard.projectId := Project.id q;
                                  Dashboard.projectName := Project.name q;
                                  Dashboard.totalCredits := 0;
                                  Dashboard.totalDebits := 0;
                                  Dashboard.profit := 0 |}) (p :: ps))
    by reflexivity.
  rewrite Hs.
  rewrite zero_profits_balance
    by (apply Forall_map, Forall_forall; intros; reflexivity).
  reflexivity.
Qed.

Lemma fetchData_null_transactions_witness :
  Dashboard.totalPortfolioBalance
    (Run.snapshot Samples.transactionsNull Run.dashboardStart) = 0
  /\ List.length
       (Dashboard.dailyStats
          (Run.snapshot Samples.transactionsNull Run.dashboardStart)) = 7%nat.
Proof.
  rewrite (fetchData_null_transactions Samples.transactionsNull
             Run.dashboardStart Run.downtown [] eq_refl eq_refl).
  split; reflexivity.
Defined.

End HookRuns.

(* ===================================================================== *)
(** * The window on a host without clock changes *)
(* ===================================================================== *)

Module WindowFacts.

Import CalendarFacts DateRoundTrip.

Lemma DateFromTime_Day (t1 t2 : Z) :
  JS.Day t1 = JS.Day t2 -> JS.DateFromTime t1 = JS.DateFromTime t2.
Proof.
  intro H.
  assert (Hy : JS.YearFromTime t1 = JS.YearFromTime t2)
    by (unfold JS.YearFromTime; rewrite H; reflexivity).
  assert (Hl : JS.InLeapYear t1 = JS.InLeapYear t2)
    by (unfold JS.InLeapYear; rewrite Hy; reflexivity).
  assert (Hw : JS.DayWithinYear t1 = JS.DayWithinYear t2)
    by (unfold JS.DayWithinYear; rewrite H, Hy; reflexivity).
  assert (Hm : JS.MonthFromTime t1 = JS.MonthFromTime t2)
    by (unfold JS.MonthFromTime; rewrite Hw, Hl; reflexivity).
  unfold JS.DateFromTime. rewrite Hm, Hw, Hl. reflexivity.
Qed.

Lemma indices_7_range (k : Z) : In k (JS.indices 7) -> 0 <= k <= 6.
Proof.
  change (JS.indices 7) with [0; 1; 2; 3; 4; 5; 6]. cbn [In].
  intuition lia.
Qed.

(** A date of the window reads back as the start of its day. *)
Lemma parse_dateOfDay (d : Z) :
  -719528 <= d < 2932897 ->
  DateParse.parseDateOnly (Spec.dateOfDay d) = Some (d * JS.msPerDay).
Proof.
  intro Hd. unfold Spec.dateOfDay.
  rewrite parseDateOnly_isoDatePart.
  - rewrite Day_of_day. reflexivity.
  - apply YearFromTime_four_digits. unfold JS.msPerDay. lia.
Qed.

Lemma parse_window (d : Z) :
  -719522 <= d < 2932897 ->
  map DateParse.parseDateOnly (Spec.windowEndingOn d)
  = map (fun k => Some ((d - 6 + k) * JS.msPerDay)) (JS.indices 7).
Proof.
  intro Hd. unfold Spec.windowEndingOn. rewrite map_map.
  apply map_ext_in. intros k Hk. apply indices_7_range in Hk.
  apply parse_dateOfDay. lia.
Qed.

Lemma clock_day_range (now : Z) :
  0 <= now < 253402300800000 -> 0 <= JS.Day now < 2932897.
Proof.
  intro H. unfold JS.Day, JS.msPerDay. Z.div_mod_to_equations. lia.
Qed.

(** X5: On a host whose zone has a constant offset, and for a clock reading
    between 1970 and 9999, the seven dates of [dailyStats] read back as
    seven consecutive UTC days, the last of them the day of the clock
    reading, and are pairwise distinct (they are the keys of the bars). *)
Theorem window_fixedZone_reads_back (env : Dashboard.Env) (w : Dashboard.World)
  (p : Project.Row) (ps : list Project.Row) (ts : list Transaction.Row)
  (offset : Z) :
  Run.answers env (p :: ps) ts ->
  Dashboard.tz env = Run.fixedZone offset ->
  0 <= Dashboard.now env < 253402300800000 ->
  map DateParse.parseDateOnly
    (map Dashboard.date (Dashboard.dailyStats (Run.snapshot env w)))
  = map (fun k => Some ((JS.Day (Dashboard.now env) - 6 + k) * JS.msPerDay))
      (JS.indices 7)
  /\ NoDup (map Dashboard.date (Dashboard.dailyStats (Run.snapshot env w))).
Proof.
  intros Hans Htz Hnow.
  destruct (DailyWindow.dailyStats_fixedZone env w p ps ts offset Hans Htz)
    as [_ Hdates].
  pose proof (clock_day_range _ Hnow) as Hd.
  assert (Hparse := parse_window (JS.Day (Dashboard.now env)) ltac:(lia)).
  rewrite Hdates. split; [exact Hparse|].
  apply (NoDup_map_inv DateParse.parseDateOnly). rewrite Hparse.
  change (JS.indices 7) with [0; 1; 2; 3; 4; 5; 6]. cbn [map].
  unfold JS.msPerDay.
  repeat constructor; cbn [In]; intuition (try discriminate);
    match goal with
    | H : Some _ = Some _ |- _ => injection H; lia
    end.
Qed.

Lemma window_fixedZone_witness :
  NoDup (map Dashboard.date
           (Dashboard.dailyStats
              (Run.snapshot
                 (Run.dashboardEnv [Run.downtown] Run.ledger Run.clock Run.kolkata)
                 Run.dashboardStart))).
Proof.
  apply (window_fixedZone_reads_back
           (Run.dashboardEnv [Run.downtown] Run.ledger Run.clock Run.kolkata)
           Run.dashboardStart Run.downtown [] Run.ledger 19800000).
  - apply Aggregation.answers_sample.
  - reflexivity.
  - unfold Run.clock. cbn. lia.
Defined.

Lemma label_of_date (offset d : Z) :
  -719528 <= d < 2932897 ->
  DashboardScreen.barLabel (Run.fixedZone offset) (Spec.dateOfDay d)
  = Some (JS.DateFromTime ((d + offset / JS.msPerDay) * JS.msPerDay)).
Proof.
  intro Hd. unfold DashboardScreen.barLabel.
  rewrite parse_dateOfDay by exact Hd. cbn [option_map]. f_equal.
  unfold JS.getDate, JS.LocalTime, Run.fixedZone. cbn [JS.offsetAtUTC].
  apply DateFromTime_Day. rewrite Day_of_day.
  unfold JS.Day, JS.msPerDay.
  rewrite Z.add_comm, Z.div_add by discriminate. lia.
Qed.

(** X6: The number under each bar is [new Date(date).getDate()]: the date is
    read as UTC midnight and its day of the month is taken in local time.
    On a host with a constant offset east of UTC (or at UTC) the numbers are
    the days of the month of the seven dates; on a host west of UTC every
    number is that of the day before the bar's date. *)
Theorem bar_labels_fixedZone (env : Dashboard.Env) (w : Dashboard.World)
  (p : Project.Row) (ps : list Project.Row) (ts : list Transaction.Row)
  (offset : Z) :
  Run.answers env (p :: ps) ts ->
  Dashboard.tz env = Run.fixedZone offset ->
  0 <= Dashboard.now env < 253402300800000 ->
  exists bars,
    DashboardScreen.chart (Run.fixedZone offset) (Run.snapshot env w)
    = DashboardScreen.Bars bars
    /\ map DashboardScreen.key bars
       = Spec.windowEndingOn (JS.Day (Dashboard.now env))
    /\ (0 <= offset < JS.msPerDay ->
        map DashboardScreen.label bars
        = map (fun k => Some (JS.DateFromTime
                                ((JS.Day (Dashboard.now env) - 6 + k) * JS.msPerDay)))
            (JS.indices 7))
    /\ (- JS.msPerDay <= offset < 0 ->
        map DashboardScreen.label bars
        = map (fun k => Some (JS.DateFromTime
                                ((JS.Day (Dashboard.now env) - 7 + k) * JS.msPerDay)))
            (JS.indices 7)).
Proof.
  intros Hans Htz Hnow.
  destruct (DailyWindow.dailyStats_fixedZone env w p ps ts offset Hans Htz)
    as [Hlen Hdates].
  pose proof (clock_day_range _ Hnow) as Hd.
  set (data := Run.snapshot env w) in *.
  exists (map (DashboardScreen.bar (Run.fixedZone offset) data)
            (Dashboard.dailyStats data)).
  split.
  { unfold DashboardScreen.chart. rewrite Hlen. reflexivity. }
  assert (Hlabels : forall shift,
            offset / JS.msPerDay = shift ->
            map DashboardScreen.label
              (map (DashboardScreen.bar (Run.fixedZone offset) data)
                 (Dashboard.dailyStats data))
            = map (fun k => Some (JS.DateFromTime
                     ((JS.Day (Dashboard.now env) - 6 + k + shift) * JS.msPerDay)))
                (JS.indices 7)).
  { intros shift Hs. rewrite map_map. cbn [DashboardScreen.bar DashboardScreen.label].
    rewrite <- (map_map Dashboard.date
                  (DashboardScreen.barLabel (Run.fixedZone offset))).
    rewrite Hdates. unfold Spec.windowEndingOn. rewrite map_map.
    apply map_ext_in. intros k Hk. apply indices_7_range in Hk.
    rewrite label_of_date by lia. rewrite Hs. reflexivity. }
  split; [|split].
  - rewrite map_map. cbn [DashboardScreen.bar DashboardScreen.key]. exact Hdates.
  - intro Hoff. rewrite (Hlabels 0).
    + apply map_ext. intro k. do 3 f_equal. lia.
    + unfold JS.msPerDay in *. apply Z.div_small. lia.
  - intro Hoff. rewrite (Hlabels (-1)).
    + apply map_ext. intro k. do 3 f_equal. lia.
    + unfold JS.msPerDay in *. Z.div_mod_to_equations. lia.
Qed.

(** In Bogota the bars of 2025-10-21 to 2025-10-27 are numbered 20 to 26. *)
Lemma bar_labels_witness :
  exists bars,
    DashboardScreen.chart Samples.bogota
      (Run.snapshot
         (Run.dashboardEnv [Run.downtown] Run.ledger Run.clock Samples.bogota)
         Run.dashboardStart)
    = DashboardScreen.Bars bars
    /\ map DashboardScreen.key bars
       = ["2025-10-21"; "2025-10-22"; "2025-10-23"; "2025-10-24"; "2025-10-25";
          "2025-10-26"; "2025-10-27"]
    /\ map DashboardScreen.label bars
       = [Some 20; Some 21; Some 22; Some 23; Some 24; Some 25; Some 26].
Proof.
  destruct (bar_labels_fixedZone
              (Run.dashboardEnv [Run.downtown] Run.ledger Run.clock Samples.bogota)
              Run.dashboardStart Run.downtown [] Run.ledger (-18000000)
              (Aggregation.answers_sample _ _ _ _) eq_refl)
    as (bars & Hc & Hk & _ & Hw).
  { unfold Run.clock. cbn. lia. }
  exists bars. split; [exact Hc|]. split.
  - rewrite Hk. vm_compute. reflexivity.
  - rewrite Hw by (unfold JS.msPerDay; lia). vm_compute. reflexivity.
Defined.

(** Dates of the four-digit date-only form and texts the model leaves
    out. *)
Example parseDateOnly_samples :
  map DateParse.parseDateOnly
    ["2025-10-27"; "1970-01-01"; "2024-02-29"; "2025-02-29"; "2025/10/27";
     "2025-10-27T00:00:00.000Z"; "2025-13-01"; ""]
  = [Some 1761523200000; Some 0; Some 1709164800000; None; None; None; None;
     None].
Proof. vm_compute. reflexivity. Qed.

End WindowFacts.

(* ===================================================================== *)
(** * What the dashboard screen draws *)
(* ===================================================================== *)

Module ScreenFacts.

Import SumFacts SummaryFacts.




Lemma maxValue_bounds (data : Dashboard.DashboardData) :
  DashboardScreen.oneUnit <= DashboardScreen.maxValue data
  /\ forall stat, In stat (Dashboard.dailyStats data) ->
       Dashboard.credits stat <= DashboardScreen.maxValue data
       /\ Dashboard.debits stat <= DashboardScreen.maxValue data.
Proof.
  unfold DashboardScreen.maxValue.
  induction (Dashboard.dailyStats data) as [|s l [IH1 IH2]]; cbn [map fold_right].
  - split; [lia | intros stat []].
  - split; [lia|]. intros stat [<-|Hin]; [lia|].
    specialize (IH2 stat Hin). lia.
Qed.

Lemma scaled_zero (m : Z) : 0 < m -> (DashboardScreen.scaled 0 m == 0)%Q.
Proof.
  intro Hm. unfold DashboardScreen.scaled. unfold Qdiv.
  rewrite Qmult_0_l, Qmult_0_l. reflexivity.
Qed.

Lemma scaled_bounds (v m : Z) :
  0 < v <= m ->
  (0 < DashboardScreen.scaled v m /\ DashboardScreen.scaled v m <= 120)%Q.
Proof.
  intros [Hv Hm]. unfold DashboardScreen.scaled.
  assert (Hmq : (0 < inject_Z m)%Q)
    by (change (inject_Z 0 < inject_Z m)%Q; rewrite <- Zlt_Qlt; lia).
  assert (Hvq : (0 < inject_Z v)%Q)
    by (change (inject_Z 0 < inject_Z v)%Q; rewrite <- Zlt_Qlt; lia).
  assert (Hle : (inject_Z v <= inject_Z m)%Q) by (rewrite <- Zle_Qle; lia).
  assert (Hpos : (0 < inject_Z v / inject_Z m)%Q).
  { apply Qlt_shift_div_l; [exact Hmq|]. rewrite Qmult_0_l. exact Hvq. }
  assert (Hone : (inject_Z v / inject_Z m <= 1)%Q).
  { apply Qle_shift_div_r; [exact Hmq|]. rewrite Qmult_1_l. exact Hle. }
  split.
  - apply (Qmult_lt_0_compat _ 120%Q); [exact Hpos | reflexivity].
  - apply (Qle_trans _ (1 * 120)%Q); [|discriminate].
    apply Qmult_le_compat_r; [exact Hone | discriminate].
Qed.

Lemma orFour_scaled (v m : Z) :
  0 <= v <= m -> 0 < m ->
  (v = 0 -> DashboardScreen.orFour (DashboardScreen.scaled v m) = 4%Q)
  /\ (0 < DashboardScreen.orFour (DashboardScreen.scaled v m))%Q
  /\ (DashboardScreen.orFour (DashboardScreen.scaled v m) <= 120)%Q.
Proof.
  intros Hv Hm. unfold DashboardScreen.orFour.
  destruct (Qeq_bool (DashboardScreen.scaled v m) 0) eqn:E.
  - split; [reflexivity|]. split; [reflexivity | discriminate].
  - apply Qeq_bool_neq in E.
    assert (Hv' : 0 < v).
    { destruct (Z.eq_dec v 0) as [->|]; [|lia].
      exfalso. apply E. apply scaled_zero. exact Hm. }
    split; [lia|]. apply scaled_bounds. lia.
Qed.

(** X9: When no amount is negative, every bar of the chart has a height above
    0 and at most 120, and the bar of a zero total has height 4. *)
Theorem bars_fit_the_chart (env : Dashboard.Env) (w : Dashboard.World)
  (tz : JS.TimeZone) (ps : list Project.Row) (ts : list Transaction.Row)
  (stat : Dashboard.DailyStat) :
  Run.answers env ps ts ->
  (forall t, In t ts -> 0 <= Transaction.amount t) ->
  In stat (Dashboard.dailyStats (Run.snapshot env w)) ->
  let b := DashboardScreen.bar tz (Run.snapshot env w) stat in
  (0 < DashboardScreen.creditHeight b /\ DashboardScreen.creditHeight b <= 120)%Q
  /\ (0 < DashboardScreen.debitHeight b /\ DashboardScreen.debitHeight b <= 120)%Q
  /\ (Dashboard.credits stat = 0 -> DashboardScreen.creditHeight b = 4%Q)
  /\ (Dashboard.debits stat = 0 -> DashboardScreen.debitHeight b = 4%Q).
Proof.
  intros Hans Hpos Hin b. subst b.
  destruct (maxValue_bounds (Run.snapshot env w)) as [Hone Hmax].
  destruct (Hmax stat Hin) as [Hc Hd].
  assert (Hnn : 0 <= Dashboard.credits stat /\ 0 <= Dashboard.debits stat).
  { destruct ps as [|p ps].
    - rewrite (Aggregation.snapshot_no_project env w ts Hans) in Hin.
      destruct Hin.
    - rewrite (Aggregation.snapshot_some_projects env w p ps ts Hans) in Hin.
      cbn [Dashboard.dailyStats] in Hin. unfold Dashboard.computeDailyStats in Hin.
      apply in_map_iff in Hin. destruct Hin as (d & <- & _).
      unfold Dashboard.dailyStat, JS.filter_or_empty.
      cbn [Dashboard.credits Dashboard.debits].
      split; apply Aggregation.sumOfKind_nonneg; exact Hpos. }
  unfold DashboardScreen.oneUnit in Hone.
  cbn [DashboardScreen.bar DashboardScreen.creditHeight DashboardScreen.debitHeight].
  destruct (orFour_scaled (Dashboard.credits stat)
              (DashboardScreen.maxValue (Run.snapshot env w))) as (A1 & A2 & A3);
    [lia | lia |].
  destruct (orFour_scaled (Dashboard.debits stat)
              (DashboardScreen.maxValue (Run.snapshot env w))) as (B1 & B2 & B3);
    [lia | lia |].
  repeat split; assumption.
Qed.

Lemma bars_fit_the_chart_witness :
  (DashboardScreen.debitHeight
    (DashboardScreen.bar Run.kolkata
       (Run.snapshot
          (Run.dashboardEnv [Run.downtown] Run.ledger Run.clock Run.kolkata)
          Run.dashboardStart)
       {| Dashboard.date := "2025-10-27"; Dashboard.credits := 500000;
          Dashboard.debits := 120000 |})
  <= 120)%Q.
Proof.
  apply (bars_fit_the_chart
           (Run.dashboardEnv [Run.downtown] Run.ledger Run.clock Run.kolkata)
           Run.dashboardStart Run.kolkata [Run.downtown] Run.ledger).
  - apply Aggregation.answers_sample.
  - intros t Ht. simpl in Ht.
    destruct Ht as [<-|[<-|[<-|[]]]]; simpl; lia.
  - vm_compute. do 6 right. left. reflexivity.
Defined.

(** X10: The text "No transactions yet" stands in for the chart exactly when the
    user has no project.  With projects but no transaction the chart is
    drawn: seven pairs of bars, all of height 4. *)
Theorem chart_empty_only_without_projects (env : Dashboard.Env)
  (w : Dashboard.World) (tz : JS.TimeZone) (ps : list Project.Row)
  (ts : list Transaction.Row) :
  Run.answers env ps ts ->
  (DashboardScreen.chart tz (Run.snapshot env w) = DashboardScreen.NoTransactionsYet
   <-> ps = [])
  /\ (ps <> [] -> ts = [] ->
      DashboardScreen.chart tz (Run.snapshot env w)
      = DashboardScreen.Bars
          (map (fun d => {| DashboardScreen.key := d;
                            DashboardScreen.creditHeight := 4%Q;
                            DashboardScreen.debitHeight := 4%Q;
                            DashboardScreen.label := DashboardScreen.barLabel tz d |})
             (Dashboard.last7Days (Dashboard.tz env) (Dashboard.now env)))).
Proof.
  intro Hans. destruct ps as [|p ps].
  - rewrite (Aggregation.snapshot_no_project env w ts Hans).
    split; [split; reflexivity | intro H; congruence].
  - rewrite (Aggregation.snapshot_some_projects env w p ps ts Hans).
    unfold DashboardScreen.chart. cbn [Dashboard.dailyStats].
    destruct (DailyWindow.dailyStats_seven_entries (Dashboard.tz env)
                (Dashboard.now env) (Some ts)) as (_ & Hlen & _).
    rewrite Hlen. cbn [Z.of_nat Z.ltb Z.compare Pos.of_succ_nat].
    split; [split; discriminate|].
    intros _ ->. reflexivity.
Qed.

Lemma chart_witness :
  DashboardScreen.chart Run.kolkata
    (Run.snapshot (Run.dashboardEnv [Run.harbour] [] Run.clock Run.kolkata)
       Run.dashboardStart)
  <> DashboardScreen.NoTransactionsYet.
Proof.
  intro H.
  apply (chart_empty_only_without_projects
           (Run.dashboardEnv [Run.harbour] [] Run.clock Run.kolkata)
           Run.dashboardStart Run.kolkata [Run.harbour] []
           (Aggregation.answers_sample _ _ _ _)) in H.
  discriminate H.
Defined.

End ScreenFacts.

(* ===================================================================== *)
(** * What the two forms do after validation *)
(* ===================================================================== *)

Module FormRuns.

Import Eff.

Ltac unfold_project :=
  unfold Eff.exec, ProjectsScreen.handleCreateProject,
    ProjectsScreen.insert, ProjectsScreen.perform,
    ProjectsScreen.setCreating, ProjectsScreen.setModalVisible,
    ProjectsScreen.setFormData.

Ltac settle_project :=
  cbv beta iota zeta delta
    [Eff.exec Eff.try_catch_finally Eff.bind Eff.modify Eff.gets Eff.ret
     Eff.throw_if_error Eff.throw Eff.error Eff.data fst snd orb
     ProjectsScreen.state ProjectsScreen.effects ProjectsScreen.formData
     ProjectsScreen.creating ProjectsScreen.modalVisible].

Ltac unfold_transaction :=
  unfold Eff.exec, ProjectDetailScreen.handleCreateTransaction,
    ProjectDetailScreen.insert, ProjectDetailScreen.perform,
    ProjectDetailScreen.setCreating, ProjectDetailScreen.setModalVisible,
    ProjectDetailScreen.setFormData, ProjectDetailLoad.openModal,
    ProjectDetailLoad.setTransactionType.

Ltac settle_transaction :=
  cbv beta iota zeta delta
    [Eff.exec Eff.try_catch_finally Eff.bind Eff.modify Eff.gets Eff.ret
     Eff.throw_if_error Eff.throw Eff.error Eff.data fst snd orb
     ProjectDetailScreen.state ProjectDetailScreen.effects
     ProjectDetailScreen.formData ProjectDetailScreen.creating
     ProjectDetailScreen.modalVisible ProjectDetailScreen.transactionType].

(** X11: Once the project form has passed validation, the handler sends one
    insert and never throws.  When the gateway accepts the row the form is
    emptied, the dialog closed and the list asked for again; when it refuses,
    the form and the dialog stay as they are and an alert shows the gateway's
    message, or the default text when the message is empty.  Either way
    [creating] ends false. *)
Theorem handleCreateProject_after_validation (env : ProjectsScreen.Env)
  (w : ProjectsScreen.World) :
  let f := ProjectsScreen.formData (ProjectsScreen.state w) in
  let row :=
    {| ProjectInsert.user_id := ProjectsScreen.user env;
       ProjectInsert.name := ProjectsScreen.name f;
       ProjectInsert.location := ProjectsScreen.location f;
       ProjectInsert.project_type := ProjectsScreen.project_type f;
       ProjectInsert.base_contract_amount :=
         JS.parseFloat (ProjectsScreen.base_contract_amount f) |} in
  ProjectsScreen.name f <> "" ->
  ProjectsScreen.location f <> "" ->
  ProjectsScreen.project_type f <> "" ->
  ProjectsScreen.base_contract_amount f <> "" ->
  JS.isNaN (JS.parseFloat (ProjectsScreen.base_contract_amount f)) = false ->
  JS.lt_zero (JS.parseFloat (ProjectsScreen.base_contract_amount f)) = false ->
  fst (ProjectsScreen.handleCreateProject env w) = Returned tt
  /\ (Eff.error (ProjectsScreen.insertResponse env row) = None ->
      exec (ProjectsScreen.handleCreateProject env) w
      = {| ProjectsScreen.state :=
             {| ProjectsScreen.formData := ProjectsScreen.emptyForm;
                ProjectsScreen.creating := false;
                ProjectsScreen.modalVisible := false |};
           ProjectsScreen.effects :=
             ProjectsScreen.effects w
             ++ [ProjectsScreen.Insert row; ProjectsScreen.FetchProjects] |})
  /\ (forall e,
        Eff.error (ProjectsScreen.insertResponse env row) = Some e ->
        exec (ProjectsScreen.handleCreateProject env) w
        = {| ProjectsScreen.state :=
               {| ProjectsScreen.formData := f;
                  ProjectsScreen.creating := false;
                  ProjectsScreen.modalVisible :=
                    ProjectsScreen.modalVisible (ProjectsScreen.state w) |};
             ProjectsScreen.effects :=
               ProjectsScreen.effects w
               ++ [ProjectsScreen.Insert row;
                   ProjectsScreen.Alert "Error"
                     (JS.or_string (message e) "Failed to create project")] |}).
Proof.
  intros f row Hn Hl Ht Ha Hnan Hneg. subst f row.
  apply Validation.not_string_false in Hn, Hl, Ht, Ha.
  unfold_project. cbv beta iota zeta delta [Eff.bind Eff.gets fst snd].
  rewrite Hn, Hl, Ht, Ha, Hnan, Hneg. cbn [orb].
  match goal with
  | |- context [ProjectsScreen.insertResponse env ?r] =>
      destruct (ProjectsScreen.insertResponse env r) as [d [e|]]
  end; settle_project.
  - split; [reflexivity|]. split; [discriminate|].
    intros e' [= <-]. rewrite <- !app_assoc. reflexivity.
  - split; [reflexivity|]. split; [|discriminate].
    intros _. rewrite <- !app_assoc. reflexivity.
Qed.

Lemma handleCreateProject_witness :
  exec (ProjectsScreen.handleCreateProject Samples.projectsEnvDown)
    (Run.projectsWorld "Harbour Bridge" "Pune" "Commercial" "2500000")
  = {| ProjectsScreen.state :=
         ProjectsScreen.state
           (Run.projectsWorld "Harbour Bridge" "Pune" "Commercial" "2500000");
       ProjectsScreen.effects :=
         [ ProjectsScreen.Insert
             {| ProjectInsert.user_id := "u1";
                ProjectInsert.name := "Harbour Bridge";
                ProjectInsert.location := "Pune";
                ProjectInsert.project_type := "Commercial";
                ProjectInsert.base_contract_amount := JS.Finite false 2500000 0 |};
           ProjectsScreen.Alert "Error" "Failed to create project" ] |}.
Proof.
  destruct (handleCreateProject_after_validation Samples.projectsEnvDown
              (Run.projectsWorld "Harbour Bridge" "Pune" "Commercial" "2500000")
              ltac:(discriminate) ltac:(discriminate) ltac:(discriminate)
              ltac:(discriminate) eq_refl eq_refl) as (_ & _ & H).
  exact (H {| message := "" |} eq_refl).
Defined.

(** X12: Once the transaction form has passed validation, the handler sends one
    insert and never throws.  When the gateway accepts the row the dialog is
    closed, the form emptied with its date set to the UTC date of the clock,
    and the screen's data asked for again; when it refuses, the form and the
    dialog stay as they are and an alert shows the gateway's message, or the
    default text.  Either way [creating] ends false and the chosen kind is
    kept. *)
Theorem handleCreateTransaction_after_validation (env : ProjectDetailScreen.Env)
  (w : ProjectDetailScreen.World) :
  let f := ProjectDetailScreen.formData (ProjectDetailScreen.state w) in
  let k := ProjectDetailScreen.transactionType (ProjectDetailScreen.state w) in
  let row :=
    {| TransactionInsert.project_id := ProjectDetailScreen.id env;
       TransactionInsert.type := k;
       TransactionInsert.amount := JS.parseFloat (ProjectDetailScreen.amount f);
       TransactionInsert.description := ProjectDetailScreen.description f;
       TransactionInsert.category := ProjectDetailScreen.category f;
       TransactionInsert.transaction_date := ProjectDetailScreen.transaction_date f |} in
  ProjectDetailScreen.amount f <> "" ->
  ProjectDetailScreen.description f <> "" ->
  JS.isNaN (JS.parseFloat (ProjectDetailScreen.amount f)) = false ->
  JS.le_zero (JS.parseFloat (ProjectDetailScreen.amount f)) = false ->
  fst (ProjectDetailScreen.handleCreateTransaction env w) = Returned tt
  /\ (Eff.error (ProjectDetailScreen.insertResponse env row) = None ->
      exec (ProjectDetailScreen.handleCreateTransaction env) w
      = {| ProjectDetailScreen.state :=
             {| ProjectDetailScreen.transactionType := k;
                ProjectDetailScreen.formData :=
                  {| ProjectDetailScreen.amount := "";
                     ProjectDetailScreen.description := "";
                     ProjectDetailScreen.category := "";
                     ProjectDetailScreen.transaction_date :=
                       JS.isoDatePart (ProjectDetailScreen.now env) |};
                ProjectDetailScreen.creating := false;
                ProjectDetailScreen.modalVisible := false |};
           ProjectDetailScreen.effects :=
             ProjectDetailScreen.effects w
             ++ [ProjectDetailScreen.Insert row; ProjectDetailScreen.FetchData] |})
  /\ (forall e,
        Eff.error (ProjectDetailScreen.insertResponse env row) = Some e ->
        exec (ProjectDetailScreen.handleCreateTransaction env) w
        = {| ProjectDetailScreen.state :=
               {| ProjectDetailScreen.transactionType := k;
                  ProjectDetailScreen.formData := f;
                  ProjectDetailScreen.creating := false;
                  ProjectDetailScreen.modalVisible :=
                    ProjectDetailScreen.modalVisible (ProjectDetailScreen.state w) |};
             ProjectDetailScreen.effects :=
               ProjectDetailScreen.effects w
               ++ [ProjectDetailScreen.Insert row;
                   ProjectDetailScreen.Alert "Error"
                     (JS.or_string (message e) "Failed to create transaction")] |}).
Proof.
  intros f k row Ha Hd Hnan Hneg. subst f k row.
  apply Validation.not_string_false in Ha, Hd.
  unfold_transaction. cbv beta iota zeta delta [Eff.bind Eff.gets fst snd].
  rewrite Ha, Hd, Hnan, Hneg. cbn [orb].
  match goal with
  | |- context [ProjectDetailScreen.insertResponse env ?r] =>
      destruct (ProjectDetailScreen.insertResponse env r) as [d [e|]]
  end; settle_transaction.
  - split; [reflexivity|]. split; [discriminate|].
    intros e' [= <-]. rewrite <- !app_assoc. reflexivity.
  - split; [reflexivity|]. split; [|discriminate].
    intros _. rewrite <- !app_assoc, CalendarFacts.split_head_toISOString.
    reflexivity.
Qed.

Lemma handleCreateTransaction_witness :
  ProjectDetailScreen.formData
    (ProjectDetailScreen.state
       (exec (ProjectDetailScreen.handleCreateTransaction Run.detailEnv)
          (Run.detailWorld "1200" "Cement")))
  = {| ProjectDetailScreen.amount := "";
       ProjectDetailScreen.description := "";
       ProjectDetailScreen.category := "";
       ProjectDetailScreen.transaction_date := "2025-10-27" |}.
Proof.
  destruct (handleCreateTransaction_after_validation Run.detailEnv
              (Run.detailWorld "1200" "Cement")
              ltac:(discriminate) ltac:(discriminate) eq_refl eq_refl)
    as (_ & H & _).
  rewrite (H eq_refl). vm_compute. reflexivity.
Defined.

(** X13: Choosing "Add Income" or "Add Expense" and then submitting a valid form
    sends a row of the chosen kind for the project on display, with the
    description, category and date exactly as typed. *)
Theorem openModal_then_submit (env : ProjectDetailScreen.Env)
  (w : ProjectDetailScreen.World) (type : Transaction.Kind) :
  let f := ProjectDetailScreen.formData (ProjectDetailScreen.state w) in
  let opened := exec (ProjectDetailLoad.openModal type) w in
  ProjectDetailScreen.amount f <> "" ->
  ProjectDetailScreen.description f <> "" ->
  JS.isNaN (JS.parseFloat (ProjectDetailScreen.amount f)) = false ->
  JS.le_zero (JS.parseFloat (ProjectDetailScreen.amount f)) = false ->
  ProjectDetailScreen.modalVisible (ProjectDetailScreen.state opened) = true
  /\ exists rest,
       ProjectDetailScreen.effects
         (exec (ProjectDetailScreen.handleCreateTransaction env) opened)
       = ProjectDetailScreen.effects w
         ++ ProjectDetailScreen.Insert
              {| TransactionInsert.project_id := ProjectDetailScreen.id env;
                 TransactionInsert.type := type;
                 TransactionInsert.amount :=
                   JS.parseFloat (ProjectDetailScreen.amount f);
                 TransactionInsert.description := ProjectDetailScreen.description f;
                 TransactionInsert.category := ProjectDetailScreen.category f;
                 TransactionInsert.transaction_date :=
                   ProjectDetailScreen.transaction_date f |}
            :: rest.
Proof.
  intros f opened Ha Hd Hnan Hneg. split; [reflexivity|].
  exact (Validation.transaction_submitted env opened Ha Hd Hnan Hneg).
Qed.

Lemma openModal_then_submit_witness :
  exists rest,
    ProjectDetailScreen.effects
      (exec (ProjectDetailScreen.handleCreateTransaction Run.detailEnv)
         (exec (ProjectDetailLoad.openModal Transaction.credit)
            (Run.detailWorld "1200" "Advance")))
    = ProjectDetailScreen.Insert
        {| TransactionInsert.project_id := "p1";
           TransactionInsert.type := Transaction.credit;
           TransactionInsert.amount := JS.Finite false 1200 0;
           TransactionInsert.description := "Advance";
           TransactionInsert.category := "materials";
           TransactionInsert.transaction_date := "2025-10-27" |}
      :: rest.
Proof.
  apply (openModal_then_submit Run.detailEnv (Run.detailWorld "1200" "Advance")
           Transaction.credit);
    try (cbn; discriminate); vm_compute; reflexivity.
Defined.

(** X14: The date the transaction form proposes after a submission is the date
    of the last entry of the dashboard, on a host whose zone has a constant
    offset and while the UTC day has not changed. *)
Theorem default_date_is_last_entry (env : ProjectDetailScreen.Env)
  (w : ProjectDetailScreen.World) (offset dashboardNow : Z) :
  let f := ProjectDetailScreen.formData (ProjectDetailScreen.state w) in
  ProjectDetailScreen.amount f <> "" ->
  ProjectDetailScreen.description f <> "" ->
  JS.isNaN (JS.parseFloat (ProjectDetailScreen.amount f)) = false ->
  JS.le_zero (JS.parseFloat (ProjectDetailScreen.amount f)) = false ->
  (forall row, Eff.error (ProjectDetailScreen.insertResponse env row) = None) ->
  JS.Day (ProjectDetailScreen.now env) = JS.Day dashboardNow ->
  ProjectDetailScreen.transaction_date
    (ProjectDetailScreen.formData
       (ProjectDetailScreen.state
          (exec (ProjectDetailScreen.handleCreateTransaction env) w)))
  = last (Dashboard.last7Days (Run.fixedZone offset) dashboardNow) "".
Proof.
  intros f Ha Hd Hnan Hneg Hok Hday.
  destruct (handleCreateTransaction_after_validation env w Ha Hd Hnan Hneg)
    as (_ & H & _).
  rewrite (H (Hok _)). cbn [ProjectDetailScreen.state ProjectDetailScreen.formData
                              ProjectDetailScreen.transaction_date].
  rewrite DailyWindow.last7Days_fixedZone. unfold Spec.windowEndingOn.
  change (JS.indices 7) with [0; 1; 2; 3; 4; 5; 6]. cbn [map last].
  unfold Spec.dateOfDay. apply CalendarFacts.isoDatePart_Day.
  rewrite CalendarFacts.Day_of_day. lia.
Qed.

Lemma default_date_witness :
  ProjectDetailScreen.transaction_date
    (ProjectDetailScreen.formData
       (ProjectDetailScreen.state
          (exec (ProjectDetailScreen.handleCreateTransaction Run.detailEnv)
             (Run.detailWorld "1200" "Cement"))))
  = last (Dashboard.last7Days Run.kolkata (Run.clock + 3600000)) "".
Proof.
  apply (default_date_is_last_entry Run.detailEnv (Run.detailWorld "1200" "Cement")
           19800000 (Run.clock + 3600000));
    try (cbn; discriminate); vm_compute; reflexivity.
Defined.

End FormRuns.

(* ===================================================================== *)
(** * Loading the list of projects and the project on display *)
(* ===================================================================== *)

Module LoadRuns.

Import Eff SumFacts.

Ltac unfold_list :=
  unfold Eff.exec, ProjectsList.onRefresh, ProjectsList.fetchProjects,
    ProjectsList.perform, ProjectsList.setProjects, ProjectsList.setLoading,
    ProjectsList.setRefreshing.

Ltac settle_list :=
  cbv beta iota zeta delta
    [Eff.exec Eff.try_catch_finally Eff.bind Eff.modify Eff.ret
     Eff.throw_if_error Eff.throw Eff.error Eff.data fst snd
     ProjectsList.state ProjectsList.effects ProjectsList.projects
     ProjectsList.loading ProjectsList.refreshing].

(** X15: [fetchProjects] never throws.  Without a signed-in user it does
    nothing at all, so [loading] keeps its value.  With a user it sends one
    query and ends with [loading] and [refreshing] false; the list becomes
    the rows received (none for a null answer), or, when the query fails,
    stays as it was while an alert shows the message or the default text. *)
Theorem fetchProjects_outcomes (env : ProjectsList.Env) (w : ProjectsList.World) :
  fst (ProjectsList.fetchProjects env w) = Returned tt
  /\ match ProjectsList.user env with
     | None => exec (ProjectsList.fetchProjects env) w = w
     | Some uid =>
         let after := exec (ProjectsList.fetchProjects env) w in
         ProjectsList.loading (ProjectsList.state after) = false
         /\ ProjectsList.refreshing (ProjectsList.state after) = false
         /\ match Eff.error (ProjectsList.projectsResponse env) with
            | None =>
                ProjectsList.projects (ProjectsList.state after)
                = ProjectsList.orEmpty (Eff.data (ProjectsList.projectsResponse env))
                /\ ProjectsList.effects after
                   = ProjectsList.effects w
                     ++ [ProjectsList.SelectProjectsNewestFirst uid]
            | Some e =>
                ProjectsList.projects (ProjectsList.state after)
                = ProjectsList.projects (ProjectsList.state w)
                /\ ProjectsList.effects after
                   = ProjectsList.effects w
                     ++ [ProjectsList.SelectProjectsNewestFirst uid;
                         ProjectsList.Alert "Error"
                           (JS.or_string (message e) "Failed to load projects")]
            end
     end.
Proof.
  unfold_list. destruct (ProjectsList.user env) as [uid|].
  - destruct (ProjectsList.projectsResponse env) as [d [e|]]; settle_list;
      repeat split; rewrite <- ?app_assoc; reflexivity.
  - split; reflexivity.
Qed.

(** X16: A pull to refresh ends with [refreshing] false when a user is signed
    in, whether the query succeeds or not; without a user [refreshing] is
    left true. *)
Theorem onRefresh_refreshing (env : ProjectsList.Env) (w : ProjectsList.World) :
  ProjectsList.refreshing
    (ProjectsList.state (exec (ProjectsList.onRefresh env) w))
  = match ProjectsList.user env with
    | Some _ => false
    | None => true
    end.
Proof.
  unfold_list. destruct (ProjectsList.user env) as [uid|].
  - destruct (ProjectsList.projectsResponse env) as [d [e|]]; settle_list;
      reflexivity.
  - reflexivity.
Qed.

Ltac unfold_load :=
  unfold Eff.exec, ProjectDetailLoad.onRefresh, ProjectDetailLoad.fetchData,
    ProjectDetailLoad.perform, ProjectDetailLoad.setProject,
    ProjectDetailLoad.setTransactions, ProjectDetailLoad.setLoading,
    ProjectDetailLoad.setRefreshing.

Ltac settle_load :=
  cbv beta iota zeta delta
    [Eff.exec Eff.try_catch_finally Eff.bind Eff.modify Eff.ret
     Eff.throw_if_error Eff.throw Eff.error Eff.data fst snd
     ProjectDetailLoad.state ProjectDetailLoad.effects
     ProjectDetailLoad.project ProjectDetailLoad.transactions
     ProjectDetailLoad.loading ProjectDetailLoad.refreshing].

(** X17: Loading the detail screen never throws and ends with [loading] and
    [refreshing] false.  When the project query fails, or finds no row, the
    transactions are not asked for and the project and the list held before
    are kept; a missing project is reported and the screen navigates back.
    When the project is found it is stored before the transactions are asked
    for, so a failure of the second query leaves the new project beside the
    old list. *)
Theorem detail_fetchData_outcomes (env : ProjectDetailLoad.Env)
  (w : ProjectDetailLoad.World) :
  let after := exec (ProjectDetailLoad.fetchData env) w in
  let id := ProjectDetailLoad.id env in
  fst (ProjectDetailLoad.fetchData env w) = Returned tt
  /\ ProjectDetailLoad.loading (ProjectDetailLoad.state after) = false
  /\ ProjectDetailLoad.refreshing (ProjectDetailLoad.state after) = false
  /\ match Eff.error (ProjectDetailLoad.projectResponse env),
           Eff.data (ProjectDetailLoad.projectResponse env) with
     | Some e, _ =>
         ProjectDetailLoad.project (ProjectDetailLoad.state after)
         = ProjectDetailLoad.project (ProjectDetailLoad.state w)
         /\ ProjectDetailLoad.transactions (ProjectDetailLoad.state after)
            = ProjectDetailLoad.transactions (ProjectDetailLoad.state w)
         /\ ProjectDetailLoad.effects after
            = ProjectDetailLoad.effects w
              ++ [ProjectDetailLoad.SelectProject id;
                  ProjectDetailLoad.Alert "Error"
                    (JS.or_string (message e) "Failed to load project data")]
     | None, None =>
         ProjectDetailLoad.project (ProjectDetailLoad.state after)
         = ProjectDetailLoad.project (ProjectDetailLoad.state w)
         /\ ProjectDetailLoad.transactions (ProjectDetailLoad.state after)
            = ProjectDetailLoad.transactions (ProjectDetailLoad.state w)
         /\ ProjectDetailLoad.effects after
            = ProjectDetailLoad.effects w
              ++ [ProjectDetailLoad.SelectProject id;
                  ProjectDetailLoad.Alert "Error" "Project not found";
                  ProjectDetailLoad.RouterBack]
     | None, Some row =>
         ProjectDetailLoad.project (ProjectDetailLoad.state after) = Some row
         /\ match Eff.error (ProjectDetailLoad.transactionsResponse env) with
            | Some e =>
                ProjectDetailLoad.transactions (ProjectDetailLoad.state after)
                = ProjectDetailLoad.transactions (ProjectDetailLoad.state w)
                /\ ProjectDetailLoad.effects after
                   = ProjectDetailLoad.effects w
                     ++ [ProjectDetailLoad.SelectProject id;
                         ProjectDetailLoad.SelectTransactionsNewestFirst id;
                         ProjectDetailLoad.Alert "Error"
                           (JS.or_string (message e) "Failed to load project data")]
            | None =>
                ProjectDetailLoad.transactions (ProjectDetailLoad.state after)
                = ProjectsList.orEmpty
                    (Eff.data (ProjectDetailLoad.transactionsResponse env))
                /\ ProjectDetailLoad.effects after
                   = ProjectDetailLoad.effects w
                     ++ [ProjectDetailLoad.SelectProject id;
                         ProjectDetailLoad.SelectTransactionsNewestFirst id]
            end
     end.
Proof.
  cbv zeta. unfold_load.
  destruct (ProjectDetailLoad.projectResponse env) as [d [e|]].
  - settle_load. repeat split; rewrite <- ?app_assoc; reflexivity.
  - destruct d as [row|].
    + destruct (ProjectDetailLoad.transactionsResponse env) as [d2 [e2|]];
        settle_load; repeat split; rewrite <- ?app_assoc; reflexivity.
    + settle_load. repeat split; rewrite <- ?app_assoc; reflexivity.
Qed.




End LoadRuns.

(* ===================================================================== *)
(** * Order of the rows and dates as text *)
(* ===================================================================== *)

Module OrderFacts.

Import SumFacts SummaryFacts.





(** X7: A date written as [toISOString().split('T')[0]] and read back by
    [new Date(text)] is the start of the UTC day of the time it was written
    from, for every time value of the years 0 to 9999. *)
Theorem date_text_reads_back (t : Z) :
  -62167219200000 <= t < 253402300800000 ->
  DateParse.parseDateOnly (JS.split_head "T" (JS.toISOString t))
  = Some (JS.Day t * JS.msPerDay)
  /\ JS.Day t * JS.msPerDay <= t < JS.Day t * JS.msPerDay + JS.msPerDay.
Proof.
  intro Ht. split.
  - rewrite CalendarFacts.split_head_toISOString.
    apply DateRoundTrip.parseDateOnly_isoDatePart.
    apply DateRoundTrip.YearFromTime_four_digits. exact Ht.
  - unfold JS.Day, JS.msPerDay. Z.div_mod_to_equations. lia.
Qed.

Lemma date_text_reads_back_witness :
  DateParse.parseDateOnly (JS.split_head "T" (JS.toISOString Run.clock))
  = Some (JS.Day Run.clock * JS.msPerDay).
Proof.
  apply (date_text_reads_back Run.clock). unfold Run.clock. lia.
Defined.

End OrderFacts.
